(** * vue-intent: the intent state machine, its observer registry and the
    Vue adapters built on it.

    The development embeds
    - [createIntent] / [createMockIntent] (examples/basic/App.vue and the
      test suites): the seven-state machine with its [subscribers] array,
    - the composables [useIntent], [useIntentNavigation], [useIntentState],
    - the [v-intent] directive ([updateElement], [vIntent]),
    and proves the properties the specification states about them. *)

From Stdlib Require Import ZArith.
From stdpp Require Import base decidable option list strings gmap.

Local Open Scope Z_scope.
Local Open Scope string_scope.
Local Open Scope list_scope.

(** ** Data model *)

(** [IntentState] of src/types: a union of seven string literals. *)
Inductive IntentState : Set :=
  | Idle | Started | InProgress | Waiting | Blocked | Completed | Failed.

#[global] Instance IntentState_eq_dec : EqDecision IntentState.
Proof. solve_decision. Defined.

(** The string literal behind each state. *)
Definition state_name (s : IntentState) : string :=
  match s with
  | Idle => "idle"
  | Started => "started"
  | InProgress => "in-progress"
  | Waiting => "waiting"
  | Blocked => "blocked"
  | Completed => "completed"
  | Failed => "failed"
  end.

(** The eight transition methods of the [Intent] interface. *)
Inductive Op : Set :=
  | OStart | OProgress | OWait | OBlock | OComplete | OFail | OReset | OReplay.

(** A callback is a JavaScript function object; [indexOf] compares function
    objects by identity, so a callback is modelled by its identity. What the
    function does when it is called is given by an environment
    [behaviour : CallbackId -> list Cmd] (see below). *)
Definition CallbackId : Set := nat.

(** The argument of the factory. [createIntent] of App.vue reads [config.id]
    and [config.allowed]; the factories of the test suites take the value
    returned by [protectNavigation] as a parameter and allow [subscribe] to
    be overridden by [undefined] (the member is optional in [Intent]). *)
Record Config : Set := mkConfig {
  cfg_id : string;
  cfg_allowed : option bool;
  cfg_protect : bool;
  cfg_subscribe : bool
}.

(** The refs of [useIntentNavigation]. *)
Record NavRefs : Set := mkNavRefs {
  nav_isActive : bool;
  nav_protectNavigation : bool
}.

(** The refs and local variables of [useIntentState]. *)
Record StateRefs : Set := mkStateRefs {
  currentState : IntentState;
  previous : option IntentState;
  transitions : list IntentState;
  duration : Z;
  stateStartTime : Z
}.

(** The refs of [useIntent]. *)
Record IntentRefs : Set := mkIntentRefs {
  ref_state : IntentState;
  ref_allowed : bool;
  ref_message : string
}.

(** The store: the closure variables of one intent ([state], [subscribers]),
    the refs of the composables attached to it, and the clock read by
    [Date.now()]. [calls] is a ghost field: it records every invocation of a
    subscriber together with the argument it was given, like a [vi.fn()] spy
    wrapped around each callback. *)
Record World : Set := mkWorld {
  cfg : Config;
  state : IntentState;
  subscribers : list CallbackId;
  calls : list (CallbackId * IntentState);
  nav : NavRefs;
  tracked : StateRefs;
  refs : IntentRefs;
  now : Z
}.

Definition set_state (s : IntentState) (w : World) : World :=
  mkWorld (cfg w) s (subscribers w) (calls w) (nav w) (tracked w) (refs w) (now w).

Definition set_subscribers (l : list CallbackId) (w : World) : World :=
  mkWorld (cfg w) (state w) l (calls w) (nav w) (tracked w) (refs w) (now w).

Definition set_calls (c : list (CallbackId * IntentState)) (w : World) : World :=
  mkWorld (cfg w) (state w) (subscribers w) c (nav w) (tracked w) (refs w) (now w).

Definition set_nav (n : NavRefs) (w : World) : World :=
  mkWorld (cfg w) (state w) (subscribers w) (calls w) n (tracked w) (refs w) (now w).

Definition set_tracked (t : StateRefs) (w : World) : World :=
  mkWorld (cfg w) (state w) (subscribers w) (calls w) (nav w) t (refs w) (now w).

Definition set_refs (r : IntentRefs) (w : World) : World :=
  mkWorld (cfg w) (state w) (subscribers w) (calls w) (nav w) (tracked w) r (now w).

Definition set_now (t : Z) (w : World) : World :=
  mkWorld (cfg w) (state w) (subscribers w) (calls w) (nav w) (tracked w) (refs w) t.

(** ** The intent object returned by [createIntent] *)

Module Intent.

(** The reader methods: each reads the closure variable [state]. *)
Definition isActive (w : World) : bool :=
  bool_decide (state w = Started) || bool_decide (state w = InProgress).
Definition isCompleted (w : World) : bool := bool_decide (state w = Completed).
Definition isFailed (w : World) : bool := bool_decide (state w = Failed).
Definition isBlocked (w : World) : bool := bool_decide (state w = Blocked).
Definition isWaiting (w : World) : bool := bool_decide (state w = Waiting).

(** [allowed: () => config.allowed !== false]. *)
Definition allowed (w : World) : bool :=
  match cfg_allowed (cfg w) with
  | Some false => false
  | _ => true
  end.

(** [message: () => `${config.id} is ${state}`]. *)
Definition message (w : World) : string :=
  cfg_id (cfg w) +:+ " is " +:+ state_name (state w).

Definition protectNavigation (w : World) : bool := cfg_protect (cfg w).

(** [Array.prototype.indexOf]: the first index holding the same function
    object, [-1] when there is none. *)
Fixpoint indexOf_from (l : list CallbackId) (cb : CallbackId) (i : Z) : Z :=
  match l with
  | [] => -1
  | x :: l' => if decide (x = cb) then i else indexOf_from l' cb (i + 1)
  end.

Definition indexOf (l : list CallbackId) (cb : CallbackId) : Z :=
  indexOf_from l cb 0.

(** [subscribers.splice(index, 1)], for the non-negative [index] the
    caller guards it with. *)
Definition splice1 (l : list CallbackId) (index : Z) : list CallbackId :=
  delete (Z.to_nat index) l.

(** [subscribe(callback)]: [subscribers.push(callback)]. The handle it
    returns is the closure [unsubscribe callback] below, which captures
    [callback] and the array and nothing else. *)
Definition subscribe (cb : CallbackId) (w : World) : World :=
  set_subscribers (subscribers w ++ [cb]) w.

(** The handle returned by [subscribe(callback)]:
    [const index = subscribers.indexOf(callback);
     if (index > -1) subscribers.splice(index, 1)]. *)
Definition unsubscribe (cb : CallbackId) (w : World) : World :=
  let index := indexOf (subscribers w) cb in
  if index >? -1 then set_subscribers (splice1 (subscribers w) index) w
  else w.

End Intent.

(** ** Update functions of the composables

    The closures nested in a composable are named after it:
    [useIntent_updateState] is [updateState] of useIntent.ts. *)

(** [updateState] of useIntent.ts: re-read the three values. *)
Definition useIntent_updateState (w : World) : World :=
  set_refs (mkIntentRefs (state w) (Intent.allowed w) (Intent.message w)) w.

(** The computed properties of useIntent.ts: functions of [state.value]. *)
Definition useIntent_isActive (r : IntentRefs) : bool :=
  bool_decide (ref_state r = Started) || bool_decide (ref_state r = InProgress).
Definition useIntent_isCompleted (r : IntentRefs) : bool :=
  bool_decide (ref_state r = Completed).
Definition useIntent_isFailed (r : IntentRefs) : bool :=
  bool_decide (ref_state r = Failed).
Definition useIntent_isBlocked (r : IntentRefs) : bool :=
  bool_decide (ref_state r = Blocked).
Definition useIntent_isWaiting (r : IntentRefs) : bool :=
  bool_decide (ref_state r = Waiting).

(** [sync] of useIntentNavigation.ts: re-read [isActive()] and
    [protectNavigation()]. *)
Definition useIntentNavigation_sync (w : World) : World :=
  set_nav (mkNavRefs (Intent.isActive w) (Intent.protectNavigation w)) w.

(** [protectionActive = protectNavigation.value && isActive.value]. *)
Definition protectionActive (n : NavRefs) : bool :=
  nav_protectNavigation n && nav_isActive n.

(** [canLeave = !protectionActive.value]. *)
Definition canLeave (n : NavRefs) : bool := negb (protectionActive n).

(** [updateState(newState)] of useIntentState.ts; [t] is [Date.now()]. *)
Definition useIntentState_updateState (t : Z) (newState : IntentState)
    (r : StateRefs) : StateRefs :=
  if bool_decide (newState ≠ currentState r) then
    mkStateRefs newState (Some (currentState r))
                (transitions r ++ [newState]) 0 t
  else r.

(** The body of the 100 ms interval of useIntentState.ts; [active] is
    [intent.isActive()]. *)
Definition useIntentState_tick (t : Z) (active : bool) (r : StateRefs)
    : StateRefs :=
  if active then
    mkStateRefs (currentState r) (previous r) (transitions r)
                (t - stateStartTime r) (stateStartTime r)
  else r.

(** [isIn(states)] of useIntentState.ts, for the array form of the argument. *)
Definition isIn (states : list IntentState) (r : StateRefs) : bool :=
  bool_decide (currentState r ∈ states).

(** ** Transitions and observer fan-out *)

(** What a subscriber may do when it is called. The first three are calls
    back into the intent (a transition method, [subscribe], or a handle
    returned by [subscribe]); the last three are the bodies of the callbacks
    the composables register. *)
Inductive Cmd : Set :=
  | Call (o : Op)
  | Subscribe (cb : CallbackId)
  | Unsubscribe (cb : CallbackId)
  | SyncIntentRefs
  | SyncNavigation
  | TrackState.

Definition is_call (c : Cmd) : bool :=
  match c with
  | Call _ => true
  | _ => false
  end.

Module Transition.

Section Runtime.

(** The body of every function object that may be subscribed. *)
Variable behaviour : CallbackId -> list Cmd.

Definition record_call (cb : CallbackId) (arg : IntentState) (w : World)
  : World :=
  set_calls (calls w ++ [(cb, arg)]) w.

(** Run the statements of a callback body in order; [arg] is the argument
    the callback received. *)
Fixpoint run_body (exec : Cmd -> IntentState -> World -> option World)
    (arg : IntentState) (body : list Cmd) (w : World) : option World :=
  match body with
  | [] => Some w
  | c :: body' =>
      match exec c arg w with
      | Some w' => run_body exec arg body' w'
      | None => None
      end
  end.

(** [Array.prototype.forEach]: the length is read once, the array is read
    again at every index, and an index that no longer exists is skipped.
    [n] counts the indices still to visit, [k] is the current one. The
    arrow function [cb => cb(state)] reads [state] when it is called. *)
Fixpoint forEach_from (call : CallbackId -> IntentState -> World -> option World)
    (n k : nat) (w : World) : option World :=
  match n with
  | O => Some w
  | S n' =>
      match subscribers w !! k with
      | Some cb =>
          match call cb (state w) w with
          | Some w' => forEach_from call n' (S k) w'
          | None => None
          end
      | None => forEach_from call n' (S k) w
      end
  end.

Definition forEach (call : CallbackId -> IntentState -> World -> option World)
    (w : World) : option World :=
  forEach_from call (length (subscribers w)) 0 w.

Section Methods.

(** How a subscriber is called; tied to [exec] below. *)
Variable call : CallbackId -> IntentState -> World -> option World.

(** The eight transition methods, as the factory writes them:
    [state = '...'; subscribers.forEach(cb => cb(state))]. *)
Definition start_with (w : World) : option World :=
  forEach call (set_state Started w).
Definition progress_with (w : World) : option World :=
  forEach call (set_state InProgress w).
Definition wait_with (w : World) : option World :=
  forEach call (set_state Waiting w).
Definition block_with (w : World) : option World :=
  forEach call (set_state Blocked w).
Definition complete_with (w : World) : option World :=
  forEach call (set_state Completed w).
Definition fail_with (w : World) : option World :=
  forEach call (set_state Failed w).
Definition reset_with (w : World) : option World :=
  forEach call (set_state Idle w).
Definition replay_with (w : World) : option World :=
  forEach call (set_state Idle w).

Definition dispatch_with (o : Op) (w : World) : option World :=
  match o with
  | OStart => start_with w
  | OProgress => progress_with w
  | OWait => wait_with w
  | OBlock => block_with w
  | OComplete => complete_with w
  | OFail => fail_with w
  | OReset => reset_with w
  | OReplay => replay_with w
  end.

End Methods.

(** One statement of a callback body. [fuel] bounds the depth of nested
    transition calls (a subscriber calling a transition whose fan-out
    calls a subscriber that calls a transition, and so on); [None] is the
    call stack overflowing. *)
Fixpoint exec (fuel : nat) (c : Cmd) (arg : IntentState) (w : World)
    {struct fuel} : option World :=
  match c with
  | Call o =>
      match fuel with
      | O => None
      | S fuel' =>
          dispatch_with
            (fun cb a w' =>
               run_body (exec fuel') a (behaviour cb) (record_call cb a w'))
            o w
      end
  | Subscribe cb => Some (Intent.subscribe cb w)
  | Unsubscribe cb => Some (Intent.unsubscribe cb w)
  | SyncIntentRefs => Some (useIntent_updateState w)
  | SyncNavigation => Some (useIntentNavigation_sync w)
  | TrackState =>
      Some (set_tracked
              (useIntentState_updateState (now w) arg (tracked w)) w)
  end.

(** Calling the function object [cb] with argument [arg]. *)
Definition invoke (fuel : nat) (cb : CallbackId) (arg : IntentState)
    (w : World) : option World :=
  run_body (exec fuel) arg (behaviour cb) (record_call cb arg w).

(** The methods of the intent object. *)
Definition start (fuel : nat) := start_with (invoke fuel).
Definition progress (fuel : nat) := progress_with (invoke fuel).
Definition wait (fuel : nat) := wait_with (invoke fuel).
Definition block (fuel : nat) := block_with (invoke fuel).
Definition complete (fuel : nat) := complete_with (invoke fuel).
Definition fail (fuel : nat) := fail_with (invoke fuel).

(** Calling the method named by [o]. *)
Definition dispatch (fuel : nat) (o : Op) (w : World) : option World :=
  dispatch_with (invoke fuel) o w.

(** A sequence of method calls, stopping at the first that fails. *)
Fixpoint run (fuel : nat) (ops : list Op) (w : World) : option World :=
  match ops with
  | [] => Some w
  | o :: ops' =>
      match dispatch fuel o w with
      | Some w' => run fuel ops' w'
      | None => None
      end
  end.

End Runtime.

End Transition.

(** The target state the specification documents for each operation. *)
Definition target (o : Op) : IntentState :=
  match o with
  | OStart => Started
  | OProgress => InProgress
  | OWait => Waiting
  | OBlock => Blocked
  | OComplete => Completed
  | OFail => Failed
  | OReset => Idle
  | OReplay => Idle
  end.

(** A freshly created intent: [state = 'idle'], no subscriber. The refs of
    the composables hold placeholders until their setup functions run. *)
Definition createIntent (config : Config) (t : Z) : World :=
  mkWorld config Idle [] []
          (mkNavRefs false false) (mkStateRefs Idle None [Idle] 0 t)
          (mkIntentRefs Idle true "") t.

(** ** Setup functions of the composables *)

(** Each composable registers one closure; [cb] is the identity of that
    closure, and [behaviour cb] is expected to be its body (see
    [useIntent_callback] and the like). Registration happens only
    [if (intent.subscribe)]. *)
Definition subscribe_if_available (cb : CallbackId) (w : World) : World :=
  if cfg_subscribe (cfg w) then Intent.subscribe cb w else w.

(** useIntent.ts: the three refs are initialised from the intent, then
    [intent.subscribe(() => { updateState() })]. *)
Definition useIntent (cb : CallbackId) (w : World) : World :=
  subscribe_if_available cb (useIntent_updateState w).

Definition useIntent_callback : list Cmd := [SyncIntentRefs].

(** useIntentNavigation.ts: the two refs are initialised from the intent,
    then [intent.subscribe(() => { sync() })]. *)
Definition useIntentNavigation (cb : CallbackId) (w : World) : World :=
  subscribe_if_available cb (useIntentNavigation_sync w).

Definition useIntentNavigation_callback : list Cmd := [SyncNavigation].

(** useIntentState.ts: [currentState], [previous], [transitions],
    [duration] and [stateStartTime] are initialised, then
    [intent.subscribe((newState) => { updateState(newState) })]. *)
Definition useIntentState (cb : CallbackId) (w : World) : World :=
  subscribe_if_available cb
    (set_tracked (mkStateRefs (state w) None [state w] 0 (now w)) w).

Definition useIntentState_callback : list Cmd := [TrackState].

(** The action methods useIntent.ts returns: the intent's method, then
    [updateState()]. *)
Definition useIntent_action (behaviour : CallbackId -> list Cmd)
    (fuel : nat) (o : Op) (w : World) : option World :=
  match Transition.dispatch behaviour fuel o w with
  | Some w' => Some (useIntent_updateState w')
  | None => None
  end.

(** ** The [v-intent] directive *)

(** The parts of an [IntentDirectiveElement] the directive touches.
    [el_disabled] is [None] for an element without a [disabled] property
    (['disabled' in el] is false). The class list is an ordered set of
    tokens. [el_attributes] holds the content attributes written with
    [setAttribute] and [removeAttribute]; the content attributes [disabled],
    [class] and [style], which the DOM derives from the [disabled] property,
    the class list and the inline style, are read through [el_disabled],
    [el_classList] and [el_display] and not through this map. *)
Record Element : Type := mkElement {
  el_disabled : option bool;
  el_attributes : gmap string string;
  el_classList : list string;
  el_display : string;
  _intentUnsubscribe : option CallbackId;
  _intentOriginalDisplay : option string
}.

(** [binding.value]: absent, or the intent of the store. *)
Inductive BindingValue : Set := BNull | BUndefined | BIntent.

Record DirectiveBinding : Set := mkBinding {
  value : BindingValue;
  arg : option string
}.

(** [String(b)] for a boolean. *)
Definition String_of_bool (b : bool) : string :=
  if b then "true" else "false".

Definition setAttribute (k v : string) (el : Element) : Element :=
  mkElement (el_disabled el) (<[k := v]> (el_attributes el)) (el_classList el)
            (el_display el) (_intentUnsubscribe el) (_intentOriginalDisplay el).

Definition removeAttribute (k : string) (el : Element) : Element :=
  mkElement (el_disabled el) (delete k (el_attributes el)) (el_classList el)
            (el_display el) (_intentUnsubscribe el) (_intentOriginalDisplay el).

(** [el.classList.add(c)] / [el.classList.remove(c)], chosen by [on]. *)
Definition classList_toggle (c : string) (on : bool) (el : Element) : Element :=
  let l := el_classList el in
  let l' :=
    if on then (if bool_decide (c ∈ l) then l else l ++ [c])
    else filter (λ x, x ≠ c) l in
  mkElement (el_disabled el) (el_attributes el) l'
            (el_display el) (_intentUnsubscribe el) (_intentOriginalDisplay el).

(** [if ('disabled' in el) el.disabled = b]. *)
Definition set_disabled_if_present (b : bool) (el : Element) : Element :=
  match el_disabled el with
  | Some _ =>
      mkElement (Some b) (el_attributes el) (el_classList el)
                (el_display el) (_intentUnsubscribe el)
                (_intentOriginalDisplay el)
  | None => el
  end.

Definition set_display (d : string) (el : Element) : Element :=
  mkElement (el_disabled el) (el_attributes el) (el_classList el)
            d (_intentUnsubscribe el) (_intentOriginalDisplay el).

(** [if (!el._intentOriginalDisplay)
       el._intentOriginalDisplay = el.style.display || ''];
    an empty string is falsy as well. *)
Definition remember_display (el : Element) : Element :=
  match _intentOriginalDisplay el with
  | Some s =>
      if bool_decide (s = "") then
        mkElement (el_disabled el) (el_attributes el) (el_classList el)
                  (el_display el) (_intentUnsubscribe el) (Some (el_display el))
      else el
  | None =>
      mkElement (el_disabled el) (el_attributes el) (el_classList el)
                (el_display el) (_intentUnsubscribe el) (Some (el_display el))
  end.

(** [updateElement(el, binding)]. *)
Definition updateElement (el : Element) (binding : DirectiveBinding)
    (w : World) : Element :=
  match value binding with
  | BNull | BUndefined => el
  | BIntent =>
      let isAllowed := Intent.allowed w in
      let isActive := Intent.isActive w in
      let modifier := arg binding in
      if bool_decide (modifier = Some "disabled") then
        let off := negb isAllowed || isActive in
        classList_toggle "intent-disabled" off
          (setAttribute "aria-disabled" (String_of_bool off)
             (set_disabled_if_present off el))
      else if bool_decide (modifier = Some "loading") then
        setAttribute "aria-busy" (String_of_bool isActive)
          (classList_toggle "intent-loading" isActive el)
      else if bool_decide (modifier = Some "hidden") then
        if negb isAllowed then
          setAttribute "aria-hidden" "true"
            (set_display "none" (remember_display el))
        else
          removeAttribute "aria-hidden"
            (set_display (default "" (_intentOriginalDisplay el)) el)
      else
        classList_toggle "intent-active" isActive
          (classList_toggle "intent-disabled" (negb isAllowed)
             (setAttribute "aria-disabled" (String_of_bool (negb isAllowed))
                (set_disabled_if_present (negb isAllowed) el)))
  end.

(** [vIntent.mounted(el, binding)]. [cb] is the identity of the closure
    [() => { updateElement(el, binding) }] it subscribes; the element keeps
    the handle [subscribe] returned. *)
Definition mounted (cb : CallbackId) (el : Element)
    (binding : DirectiveBinding) (w : World) : Element * World :=
  match value binding with
  | BNull | BUndefined => (el, w)
  | BIntent =>
      let el' := updateElement el binding w in
      if cfg_subscribe (cfg w) then
        (mkElement (el_disabled el') (el_attributes el') (el_classList el')
                   (el_display el') (Some cb) (_intentOriginalDisplay el'),
         Intent.subscribe cb w)
      else (el', w)
  end.

(** [vIntent.updated(el, binding)]. *)
Definition updated (el : Element) (binding : DirectiveBinding) (w : World)
    : Element :=
  updateElement el binding w.

(** [vIntent.beforeUnmount(el)]. *)
Definition beforeUnmount (el : Element) (w : World) : Element * World :=
  (mkElement (el_disabled el) (el_attributes el) (el_classList el)
             (el_display el) None None,
   match _intentUnsubscribe el with
   | Some cb => Intent.unsubscribe cb w
   | None => w
   end).

(** ** Notions used to state the properties *)

(** A statement that belongs to a composable's callback: it updates refs and
    touches neither [state] nor [subscribers]. *)
Definition is_adapter (c : Cmd) : bool :=
  match c with
  | SyncIntentRefs | SyncNavigation | TrackState => true
  | _ => false
  end.

(** What such a statement does to the store. *)
Definition adapter_step (arg : IntentState) (w : World) (c : Cmd) : World :=
  match c with
  | SyncIntentRefs => useIntent_updateState w
  | SyncNavigation => useIntentNavigation_sync w
  | TrackState =>
      set_tracked (useIntentState_updateState (now w) arg (tracked w)) w
  | _ => w
  end.

(** [cb] does not mutate the intent inside its callback: its body is empty
    (a pure observer, like a spy) or made of adapter statements. *)
Definition quiet (behaviour : CallbackId -> list Cmd) (cb : CallbackId)
    : Prop :=
  forallb is_adapter (behaviour cb) = true.

(** The store after a quiet callback was called with the current state. *)
Definition quiet_call (behaviour : CallbackId -> list Cmd) (w : World)
    (cb : CallbackId) : World :=
  fold_left (adapter_step (state w)) (behaviour cb)
            (Transition.record_call cb (state w) w).

(** No subscriber calls a transition method of the intent from inside its
    callback (the re-entrant use the registry leaves to the caller). *)
Definition no_reentry (behaviour : CallbackId -> list Cmd) : Prop :=
  ∀ cb c, c ∈ behaviour cb → is_call c = false.

(** The number of entries of the array that hold [cb]. *)
Definition registrations (cb : CallbackId) (l : list CallbackId) : nat :=
  length (filter (λ x, x = cb) l).

(** [mids.forEach(cb => intent.subscribe(cb))]: further subscriptions made
    between two subscriptions of the same callback. *)
Definition subscribe_all (mids : list CallbackId) (w : World) : World :=
  fold_left (λ w' cb, Intent.subscribe cb w') mids w.

(** The registry the specification words: "keyed by registration event, not
    callback identity". The handle of the registration whose entry sits at
    position [i] removes that entry. *)
Definition spec_detach_registration (i : nat) (l : list CallbackId)
    : list CallbackId :=
  delete i l.

(** The refs of useIntentNavigation hold what the intent answers now. *)
Definition nav_fresh (w : World) : Prop :=
  nav w = mkNavRefs (Intent.isActive w) (Intent.protectNavigation w).

(** The truth table the specification documents, one row per state:
    (isActive, isCompleted, isFailed, isBlocked, isWaiting). *)
Definition truth_row (s : IntentState) : bool * bool * bool * bool * bool :=
  match s with
  | Idle => (false, false, false, false, false)
  | Started => (true, false, false, false, false)
  | InProgress => (true, false, false, false, false)
  | Waiting => (false, false, false, false, true)
  | Blocked => (false, false, false, true, false)
  | Completed => (false, true, false, false, false)
  | Failed => (false, false, true, false, false)
  end.

(** How many of the five predicates answer true. *)
Definition count_true (row : bool * bool * bool * bool * bool) : nat :=
  let '(a, c, f, b, g) := row in
  (Nat.b2n a + Nat.b2n c + Nat.b2n f + Nat.b2n b + Nat.b2n g)%nat.

(** The values the refs of useIntentState can take: the initial ones, then
    any number of notifications and timer ticks. *)
Inductive tracks : StateRefs → Prop :=
  | tracks_setup (s : IntentState) (t : Z) :
      tracks (mkStateRefs s None [s] 0 t)
  | tracks_notified (r : StateRefs) (t : Z) (s : IntentState) :
      tracks r → tracks (useIntentState_updateState t s r)
  | tracks_tick (r : StateRefs) (t : Z) (active : bool) :
      tracks r → tracks (useIntentState_tick t active r).

(** No two neighbours of the list are equal. *)
Fixpoint no_consecutive_repeat (l : list IntentState) : bool :=
  match l with
  | x :: l' =>
      match l' with
      | y :: _ => negb (bool_decide (x = y)) && no_consecutive_repeat l'
      | [] => true
      end
  | [] => true
  end.

(** ** Concrete intents used to instantiate the statements below *)

Definition demo_config : Config := mkConfig "upload" None true true.

(** Callback [0] is [() => { unsubscribe0() }]; every other one is a spy. *)
Definition self_detaching : CallbackId -> list Cmd :=
  λ cb, match cb with
        | O => [Unsubscribe 0%nat]
        | _ => []
        end.

(** [subscribe(cb0); subscribe(cb1)] on a fresh intent. *)
Definition two_observers : World :=
  Intent.subscribe 1%nat
    (Intent.subscribe 0%nat (createIntent demo_config 0)).

(** [subscribe(cb7); subscribe(cb7)] on a fresh intent. *)
Definition twice_subscribed : World :=
  Intent.subscribe 7%nat
    (Intent.subscribe 7%nat (createIntent demo_config 0)).

(** [subscribe(cb0); subscribe(cb1); subscribe(cb0)] on a fresh intent. *)
Definition interleaved : World :=
  Intent.subscribe 0%nat
    (Intent.subscribe 1%nat
       (Intent.subscribe 0%nat (createIntent demo_config 0))).

(** [subscribe(cb3)] on a fresh intent. *)
Definition one_observer : World :=
  Intent.subscribe 3%nat (createIntent demo_config 0).

(** Every callback is a spy. *)
Definition spies : CallbackId -> list Cmd := λ _, [].

(** Callback [0] is [() => { unsubscribe0(); intent.fail() }]: it re-enters
    the intent from inside the fan-out. *)
Definition reentrant : CallbackId -> list Cmd :=
  λ cb, match cb with
        | O => [Unsubscribe 0%nat; Call OFail]
        | _ => []
        end.

(** Every callback is [() => { intent.start() }]. *)
Definition looping : CallbackId -> list Cmd := λ _, [Call OStart].

(** Callback [0] detaches itself and subscribes callback [5]; callback [1]
    is the closure of useIntentNavigation; every other one is a spy. *)
Definition registry_users : CallbackId -> list Cmd :=
  λ cb, match cb with
        | 0%nat => [Unsubscribe 0%nat; Subscribe 5%nat]
        | 1%nat => useIntentNavigation_callback
        | _ => []
        end.

(** The intent of [demo_config] with [subscribe] overridden by [undefined]. *)
Definition silent_config : Config := mkConfig "upload" None true false.

(** Callback [9] is the closure of useIntentNavigation; the others are
    spies. *)
Definition navigation_observer : CallbackId -> list Cmd :=
  λ cb, if decide (cb = 9%nat) then useIntentNavigation_callback else [].

(** The refs after the notifications started, in-progress, in-progress. *)
Definition tracked_after_progress : StateRefs :=
  useIntentState_updateState 30 InProgress
    (useIntentState_updateState 20 InProgress
       (useIntentState_updateState 10 Started
          (mkStateRefs Idle None [Idle] 0 0))).

(** A button that already went through the directive once. *)
Definition demo_button : Element :=
  mkElement (Some false) {[ "aria-disabled" := "false" ]} ["btn"] ""
            None None.

(** ** The rest of the composables, the components and the plugin *)

(** [onUnmounted] of the three composables, as far as the intent is
    concerned: [if (unsubscribe) { unsubscribe() }]. The handle exists only
    when [intent.subscribe] did. *)
Definition onUnmounted (cb : CallbackId) (w : World) : World :=
  if cfg_subscribe (cfg w) then Intent.unsubscribe cb w else w.

(** The options of useIntentNavigation. A hook is either given or not; what
    a given hook does is the caller's. *)
Record IntentNavigationOptions : Set := mkNavigationOptions {
  confirmMessage : option string;
  onBeforeLeave : bool;
  onAfterLeave : bool
}.

(** The default of the destructuring: it applies to [undefined] only. *)
Definition confirm_text (options : IntentNavigationOptions) : string :=
  default "An operation is in progress. Are you sure you want to leave?"
          (confirmMessage options).

(** The parts of a [BeforeUnloadEvent] the handler touches. *)
Record BeforeUnloadEvent : Set := mkBeforeUnloadEvent {
  defaultPrevented : bool;
  returnValue : string
}.

(** [handleBeforeUnload(event)]: the event after the call and the value
    returned ([None] is [undefined]). It reads the refs, it does not call
    [sync()]. *)
Definition handleBeforeUnload (options : IntentNavigationOptions)
    (n : NavRefs) (event : BeforeUnloadEvent)
    : BeforeUnloadEvent * option string :=
  if protectionActive n then
    (mkBeforeUnloadEvent true (confirm_text options),
     Some (confirm_text options))
  else (event, None).

(** What the route-leave guard does to the outside, in order: the two hooks,
    [window.confirm(msg)], and [next()] ([true]) or [next(false)]. *)
Inductive GuardEffect : Set :=
  | CallBeforeLeave
  | Confirm (msg : string)
  | CallAfterLeave
  | Next (proceed : bool).

(** The callback given to [onBeforeRouteLeave]; [confirmed] is the answer
    [window.confirm] gives if it is asked. *)
Definition routeLeaveGuard (options : IntentNavigationOptions)
    (confirmed : bool) (w : World) : World * list GuardEffect :=
  let w1 := useIntentNavigation_sync w in
  if negb (protectionActive (nav w1)) then
    (w1, (if onAfterLeave options then [CallAfterLeave] else [])
         ++ [Next true])
  else
    (w1, (if onBeforeLeave options then [CallBeforeLeave] else [])
         ++ [Confirm (confirm_text options)]
         ++ (if confirmed then
               (if onAfterLeave options then [CallAfterLeave] else [])
               ++ [Next true]
             else [Next false])).

(** The calls to [next] among the effects of the guard. *)
Definition is_next (e : GuardEffect) : bool :=
  match e with
  | Next _ => true
  | _ => false
  end.

(** A sequence of method calls, each made when the clock shows the given
    time. *)
Fixpoint run_at (behaviour : CallbackId -> list Cmd) (fuel : nat)
    (ops : list (Z * Op)) (w : World) : option World :=
  match ops with
  | [] => Some w
  | (t, o) :: ops' =>
      match Transition.dispatch behaviour fuel o (set_now t w) with
      | Some w' => run_at behaviour fuel ops' w'
      | None => None
      end
  end.

(** IntentProgress.vue: [currentStepIndex], for [steps.length = n]. *)
Definition currentStepIndex (current : IntentState) (n : nat) : Z :=
  if bool_decide (current = Idle) then -1
  else if bool_decide (current = Completed) then Z.of_nat n
  else 0.

(** IntentProgress.vue: [getStepClass(index)]; the array it joins holds one
    class. *)
Definition getStepClass (current : IntentState) (n : nat) (index : Z)
    : string :=
  if (index <? currentStepIndex current n)%Z then
    "intent-progress__step--completed"
  else if (index =? currentStepIndex current n)%Z then
    "intent-progress__step--active"
  else "intent-progress__step--pending".






(** ** Further notions used to state the properties *)

(** A statement that calls [subscribe] or a handle. *)
Definition is_registry (c : Cmd) : bool :=
  match c with
  | Subscribe _ | Unsubscribe _ => true
  | _ => false
  end.

(** What such a statement does to the store. *)
Definition registry_step (c : Cmd) (w : World) : World :=
  match c with
  | Subscribe cb => Intent.subscribe cb w
  | Unsubscribe cb => Intent.unsubscribe cb w
  | _ => w
  end.

(** The refs a composable's statement writes hold what the intent answers
    now. *)
Definition synced (c : Cmd) (w : World) : Prop :=
  match c with
  | SyncIntentRefs =>
      refs w = mkIntentRefs (state w) (Intent.allowed w) (Intent.message w)
  | SyncNavigation => nav_fresh w
  | TrackState => currentState (tracked w) = state w
  | _ => True
  end.

(** A list without its consecutive repetitions. *)
Fixpoint collapse (l : list IntentState) : list IntentState :=
  match l with
  | x :: l' =>
      match l' with
      | y :: _ => if bool_decide (x = y) then collapse l' else x :: collapse l'
      | [] => [x]
      end
  | [] => []
  end.

(** The values the refs of useIntentState can take by time [t], when the
    clock never runs backwards. *)
Inductive tracks_until : Z → StateRefs → Prop :=
  | until_setup (s : IntentState) (t : Z) :
      tracks_until t (mkStateRefs s None [s] 0 t)
  | until_notified (r : StateRefs) (t t' : Z) (s : IntentState) :
      tracks_until t r → (t ≤ t')%Z →
      tracks_until t' (useIntentState_updateState t' s r)
  | until_tick (r : StateRefs) (t t' : Z) (active : bool) :
      tracks_until t r → (t ≤ t')%Z →
      tracks_until t' (useIntentState_tick t' active r).

(** The state an intent is in after a sequence of timed transitions. *)
Definition last_state (s : IntentState) (ops : list (Z * Op)) : IntentState :=
  fold_left (λ _ p, target p.2) ops s.

(** [classList.add(c)] / [classList.remove(c)] on the list of tokens. *)
Definition toggle_class (c : string) (on : bool) (l : list string)
    : list string :=
  if on then (if bool_decide (c ∈ l) then l else l ++ [c])
  else filter (λ x, x ≠ c) l.

(** The classes and attributes the directive owns. *)
Definition directive_classes : list string :=
  ["intent-disabled"; "intent-loading"; "intent-active"].

Definition directive_attributes : list string :=
  ["aria-disabled"; "aria-busy"; "aria-hidden"].

(** The content attributes that reflect the properties the directive
    assigns: [el.disabled = b] adds or removes [disabled], [classList.add]
    and [classList.remove] rewrite [class], [style.display = d] rewrites
    [style]. *)
Definition reflected_attributes : list string :=
  ["disabled"; "class"; "style"].

(** [updateElement] run once per store of the list, in order: the
    notifications and [updated] hooks an element goes through. *)
Definition updates (binding : DirectiveBinding) (ws : list World)
    (el : Element) : Element :=
  fold_left (λ e w, updateElement e binding w) ws el.

(** A store in which the permission has the given value. *)
Definition with_allowed (b : bool) (w : World) : World :=
  mkWorld (mkConfig (cfg_id (cfg w)) (Some b) (cfg_protect (cfg w))
                    (cfg_subscribe (cfg w)))
          (state w) (subscribers w) (calls w) (nav w) (tracked w) (refs w)
          (now w).

(** A button with an inline display. *)
Definition inline_button : Element :=
  mkElement (Some false) ∅ ["btn"] "inline-block" None None.

(** Callback [0] is [() => { intent.subscribe(cb5) }]. *)
Definition late_subscriber : CallbackId -> list Cmd :=
  λ cb, match cb with
        | O => [Subscribe 5%nat]
        | _ => []
        end.

(** Callback [0] is [() => { unsubscribe2() }]. *)
Definition detaches_later : CallbackId -> list Cmd :=
  λ cb, match cb with
        | O => [Unsubscribe 2%nat]
        | _ => []
        end.

(** Callback [1] is [() => { unsubscribe0() }]. *)
Definition detaches_earlier : CallbackId -> list Cmd :=
  λ cb, match cb with
        | 1%nat => [Unsubscribe 0%nat]
        | _ => []
        end.

(** Callbacks [1], [2] and [3] are the closures of useIntent,
    useIntentNavigation and useIntentState. *)
Definition composables : CallbackId -> list Cmd :=
  λ cb, match cb with
        | 1%nat => useIntent_callback
        | 2%nat => useIntentNavigation_callback
        | 3%nat => useIntentState_callback
        | _ => []
        end.

(** [subscribe(cb0); subscribe(cb1); subscribe(cb2); subscribe(cb3)] on a
    fresh intent. *)
Definition four_observers : World :=
  subscribe_all [0%nat; 1%nat; 2%nat; 3%nat] (createIntent demo_config 0).

(** * Properties *)

(** ** The registry: [indexOf], [splice], the handles *)

Lemma indexOf_from_absent (l : list CallbackId) (cb : CallbackId) (i : Z) :
  cb ∉ l → Intent.indexOf_from l cb i = -1.
Proof.
  revert i. induction l as [|x l IH]; intros i Hn; simpl; [done|].
  apply not_elem_of_cons in Hn as [Hx Hl].
  destruct (decide (x = cb)) as [->|_]; [done|]. by apply IH.
Qed.

Lemma indexOf_from_first (l1 l2 : list CallbackId) (cb : CallbackId) (i : Z) :
  cb ∉ l1 →
  Intent.indexOf_from (l1 ++ cb :: l2) cb i = i + Z.of_nat (length l1).
Proof.
  revert i. induction l1 as [|x l1 IH]; intros i Hn; simpl.
  - destruct (decide (cb = cb)); [lia|done].
  - apply not_elem_of_cons in Hn as [Hx Hl].
    destruct (decide (x = cb)) as [->|_]; [done|].
    rewrite IH by done. lia.
Qed.

(** The handle of a callback that is not in the array does nothing. *)
Lemma unsubscribe_absent (cb : CallbackId) (w : World) :
  cb ∉ subscribers w → Intent.unsubscribe cb w = w.
Proof.
  intros Hn. unfold Intent.unsubscribe, Intent.indexOf.
  by rewrite indexOf_from_absent.
Qed.

(** The handle removes the first entry holding its callback. *)
Lemma unsubscribe_first (cb : CallbackId) (w : World) (l1 l2 : list CallbackId) :
  subscribers w = l1 ++ cb :: l2 → cb ∉ l1 →
  Intent.unsubscribe cb w = set_subscribers (l1 ++ l2) w.
Proof.
  intros Hs Hn. unfold Intent.unsubscribe, Intent.indexOf, Intent.splice1.
  rewrite Hs, indexOf_from_first by done.
  destruct (Z.gtb_spec (0 + Z.of_nat (length l1)) (-1)); [|lia].
  replace (Z.to_nat (0 + Z.of_nat (length l1))) with (length l1) by lia.
  by rewrite delete_middle.
Qed.

(** Every list splits at the first occurrence of an element it contains. *)
Lemma first_occurrence (cb : CallbackId) (l : list CallbackId) :
  cb ∈ l → ∃ l1 l2, l = l1 ++ cb :: l2 ∧ cb ∉ l1.
Proof.
  induction l as [|x l IH]; intros Hin; [by apply elem_of_nil in Hin|].
  destruct (decide (x = cb)) as [->|Hne].
  - exists [], l. split; [done|]. apply not_elem_of_nil.
  - apply elem_of_cons in Hin as [->|Hin]; [done|].
    destruct (IH Hin) as (l1 & l2 & -> & Hn).
    exists (x :: l1), l2. split; [done|].
    apply not_elem_of_cons. split; [congruence|done].
Qed.

(** ** Fan-out over subscribers that leave the intent alone *)

Section Quiet.

Variable behaviour : CallbackId -> list Cmd.

Lemma adapter_step_frame arg w c :
  state (adapter_step arg w c) = state w
  ∧ subscribers (adapter_step arg w c) = subscribers w
  ∧ calls (adapter_step arg w c) = calls w
  ∧ cfg (adapter_step arg w c) = cfg w
  ∧ now (adapter_step arg w c) = now w.
Proof. by destruct c. Qed.

Lemma adapter_steps_frame arg body w :
  state (fold_left (adapter_step arg) body w) = state w
  ∧ subscribers (fold_left (adapter_step arg) body w) = subscribers w
  ∧ calls (fold_left (adapter_step arg) body w) = calls w
  ∧ cfg (fold_left (adapter_step arg) body w) = cfg w
  ∧ now (fold_left (adapter_step arg) body w) = now w.
Proof.
  revert w. induction body as [|c body IH]; intros w; simpl; [done|].
  destruct (IH (adapter_step arg w c)) as (-> & -> & -> & -> & ->).
  apply adapter_step_frame.
Qed.

Lemma quiet_call_frame w cb :
  state (quiet_call behaviour w cb) = state w
  ∧ subscribers (quiet_call behaviour w cb) = subscribers w
  ∧ calls (quiet_call behaviour w cb) = calls w ++ [(cb, state w)]
  ∧ cfg (quiet_call behaviour w cb) = cfg w
  ∧ now (quiet_call behaviour w cb) = now w.
Proof.
  unfold quiet_call.
  destruct (adapter_steps_frame (state w) (behaviour cb)
              (Transition.record_call cb (state w) w))
    as (-> & -> & -> & -> & ->).
  done.
Qed.

Lemma exec_adapter fuel c arg w :
  is_adapter c = true →
  Transition.exec behaviour fuel c arg w = Some (adapter_step arg w c).
Proof. by destruct c, fuel. Qed.

Lemma run_body_adapters fuel arg body w :
  forallb is_adapter body = true →
  Transition.run_body (Transition.exec behaviour fuel) arg body w
  = Some (fold_left (adapter_step arg) body w).
Proof.
  revert w. induction body as [|c body IH]; intros w Hq; simpl; [done|].
  simpl in Hq. apply andb_true_iff in Hq as [Hc Hb].
  rewrite exec_adapter by done. by apply IH.
Qed.

Lemma invoke_quiet fuel cb w :
  quiet behaviour cb →
  Transition.invoke behaviour fuel cb (state w) w = Some (quiet_call behaviour w cb).
Proof. intros Hq. unfold Transition.invoke. by rewrite run_body_adapters. Qed.

(** [forEach] over quiet subscribers visits the entries [k], [k+1], ... in
    order: nothing moves under it. *)
Lemma forEach_from_quiet fuel n k w :
  (∀ cb, cb ∈ take n (drop k (subscribers w)) → quiet behaviour cb) →
  Transition.forEach_from (Transition.invoke behaviour fuel) n k w
  = Some (fold_left (quiet_call behaviour) (take n (drop k (subscribers w))) w).
Proof.
  revert k w. induction n as [|n IH]; intros k w Hq; simpl; [done|].
  destruct (subscribers w !! k) as [cb|] eqn:Hk.
  - rewrite (drop_S _ _ _ Hk) in Hq |- *. simpl in Hq |- *.
    rewrite invoke_quiet by (apply Hq; left).
    destruct (quiet_call_frame w cb) as (Hst & Hsub & _).
    rewrite IH; rewrite Hsub; [done|].
    intros cb' Hin. apply Hq. by right.
  - apply lookup_ge_None in Hk.
    rewrite IH.
    + rewrite !drop_ge by lia. by rewrite !take_nil.
    + rewrite drop_ge by lia. rewrite take_nil. by intros cb Hin%elem_of_nil.
Qed.

Lemma fold_quiet_frame l w :
  state (fold_left (quiet_call behaviour) l w) = state w
  ∧ subscribers (fold_left (quiet_call behaviour) l w) = subscribers w
  ∧ calls (fold_left (quiet_call behaviour) l w)
    = calls w ++ map (λ cb, (cb, state w)) l
  ∧ cfg (fold_left (quiet_call behaviour) l w) = cfg w
  ∧ now (fold_left (quiet_call behaviour) l w) = now w.
Proof.
  revert w. induction l as [|cb l IH]; intros w; simpl.
  - by rewrite app_nil_r.
  - destruct (IH (quiet_call behaviour w cb)) as (-> & -> & -> & -> & ->).
    destruct (quiet_call_frame w cb) as (-> & -> & -> & -> & ->).
    by rewrite <- app_assoc.
Qed.

(** A whole fan-out over quiet subscribers. *)
Lemma forEach_quiet fuel w :
  (∀ cb, cb ∈ subscribers w → quiet behaviour cb) →
  Transition.forEach (Transition.invoke behaviour fuel) w
  = Some (fold_left (quiet_call behaviour) (subscribers w) w).
Proof.
  intros Hq. unfold Transition.forEach.
  rewrite forEach_from_quiet; rewrite drop_0, firstn_all; [done|exact Hq].
Qed.

End Quiet.

(** ** Transitions *)

(** Every method writes its literal and fans out; no guard reads [state]. *)
Lemma dispatch_unfold behaviour fuel (o : Op) (w : World) :
  Transition.dispatch behaviour fuel o w
  = Transition.forEach (Transition.invoke behaviour fuel)
      (set_state (target o) w).
Proof. by destruct o. Qed.

Section NoReentry.

Variable behaviour : CallbackId -> list Cmd.
Hypothesis Hno : no_reentry behaviour.

Lemma unsubscribe_state cb w : state (Intent.unsubscribe cb w) = state w.
Proof. unfold Intent.unsubscribe. by case_match. Qed.

Lemma exec_no_call fuel c arg w :
  is_call c = false →
  ∃ w', Transition.exec behaviour fuel c arg w = Some w'
        ∧ state w' = state w.
Proof.
  destruct c; intros Hc; try discriminate; destruct fuel; simpl; eexists;
    (split; [reflexivity|]); try done; apply unsubscribe_state.
Qed.

Lemma run_body_no_call fuel arg body w :
  (∀ c, c ∈ body → is_call c = false) →
  ∃ w', Transition.run_body (Transition.exec behaviour fuel) arg body w
        = Some w'
        ∧ state w' = state w.
Proof.
  revert w. induction body as [|c body IH]; intros w Hb; simpl.
  - by exists w.
  - destruct (exec_no_call fuel c arg w) as (w1 & -> & H1).
    { apply Hb. left. }
    destruct (IH w1) as (w2 & -> & H2).
    { intros c' Hin. apply Hb. by right. }
    exists w2. split; [done|congruence].
Qed.

Lemma invoke_no_call fuel cb arg w :
  ∃ w', Transition.invoke behaviour fuel cb arg w = Some w'
        ∧ state w' = state w.
Proof.
  unfold Transition.invoke.
  destruct (run_body_no_call fuel arg (behaviour cb)
              (Transition.record_call cb arg w)) as (w' & -> & H).
  { intros c Hin. by apply (Hno cb). }
  by exists w'.
Qed.

Lemma forEach_from_no_call fuel n k w :
  ∃ w', Transition.forEach_from (Transition.invoke behaviour fuel) n k w
        = Some w'
        ∧ state w' = state w.
Proof.
  revert k w. induction n as [|n IH]; intros k w; simpl.
  - by exists w.
  - destruct (subscribers w !! k) as [cb|]; [|apply IH].
    destruct (invoke_no_call fuel cb (state w) w) as (w1 & -> & H1).
    destruct (IH (S k) w1) as (w2 & -> & H2).
    exists w2. split; [done|congruence].
Qed.

End NoReentry.

(** Without re-entrant subscribers a transition returns, in its target. *)
Lemma total_transition_coverage_aux
    (behaviour : CallbackId -> list Cmd) (fuel : nat) (O : Op) (w : World) :
  no_reentry behaviour →
  ∃ w', Transition.dispatch behaviour fuel O w = Some w'
        ∧ state w' = target O.
Proof.
  intros Hno. rewrite dispatch_unfold. unfold Transition.forEach.
  destruct (forEach_from_no_call behaviour Hno fuel
              (length (subscribers (set_state (target O) w))) 0
              (set_state (target O) w)) as (w' & Hw & Hs).
  exists w'. by split.
Qed.

(** C1, amended. Total transition coverage, when no callback calls a
    transition of the same intent from inside the fan-out: from every state
    [s], every operation [O] returns normally and leaves the intent in
    [target O]. The callbacks may do anything else: subscribe, unsubscribe
    (themselves or others) and update the composables' refs. *)
Theorem total_transition_coverage
    (behaviour : CallbackId -> list Cmd) (fuel : nat)
    (s : IntentState) (O : Op) (w : World) :
  no_reentry behaviour →
  state w = s →
  ∃ w', Transition.dispatch behaviour fuel O w = Some w'
        ∧ state w' = target O.
Proof. intros Hno _. by apply total_transition_coverage_aux. Qed.

(** The calls a transition makes when its subscribers are quiet. *)
Lemma dispatch_quiet_calls
    (behaviour : CallbackId -> list Cmd) (fuel : nat) (O : Op) (w : World) :
  (∀ cb, cb ∈ subscribers w → quiet behaviour cb) →
  ∃ w', Transition.dispatch behaviour fuel O w = Some w'
        ∧ calls w' = calls w ++ map (λ cb, (cb, target O)) (subscribers w).
Proof.
  intros Hq. rewrite dispatch_unfold, forEach_quiet by exact Hq.
  eexists. split; [reflexivity|].
  by destruct (fold_quiet_frame behaviour (subscribers (set_state (target O) w))
                 (set_state (target O) w)) as (_ & _ & -> & _).
Qed.

(** C2. Fan-out correctness: with [N] registered observers, none of which
    mutates the intent inside its callback, a transition first writes the
    target state and then calls each registered callback exactly once, in
    registration order, with the post-transition state; with no observer it
    only writes the state. *)
Theorem fanout_in_registration_order
    (behaviour : CallbackId -> list Cmd) (fuel : nat) (O : Op) (w : World) :
  (∀ cb, cb ∈ subscribers w → quiet behaviour cb) →
  ∃ w', Transition.dispatch behaviour fuel O w = Some w'
        ∧ state w' = target O
        ∧ subscribers w' = subscribers w
        ∧ calls w' = calls w ++ map (λ cb, (cb, target O)) (subscribers w)
        ∧ (subscribers w = [] → w' = set_state (target O) w).
Proof.
  intros Hq. rewrite dispatch_unfold, forEach_quiet by exact Hq.
  eexists. split; [reflexivity|].
  destruct (fold_quiet_frame behaviour (subscribers (set_state (target O) w))
              (set_state (target O) w)) as (-> & -> & -> & _).
  repeat split; try done.
  simpl. by intros ->.
Qed.

(** ** A subscriber that detaches itself during the fan-out *)

Lemma forEach_from_add call (n1 n2 k : nat) (w : World) :
  Transition.forEach_from call (n1 + n2) k w
  = match Transition.forEach_from call n1 k w with
    | Some w' => Transition.forEach_from call n2 (k + n1) w'
    | None => None
    end.
Proof.
  revert k w. induction n1 as [|n1 IH]; intros k w; simpl.
  - by rewrite Nat.add_0_r.
  - destruct (subscribers w !! k) as [cb|].
    + destruct (call cb (state w) w) as [w1|]; [|done].
      rewrite IH. by replace (S k + n1)%nat with (k + S n1)%nat by lia.
    + rewrite IH. by replace (S k + n1)%nat with (k + S n1)%nat by lia.
Qed.

Lemma invoke_unfold behaviour fuel cb arg w :
  Transition.invoke behaviour fuel cb arg w
  = Transition.run_body (Transition.exec behaviour fuel) arg (behaviour cb)
      (Transition.record_call cb arg w).
Proof. reflexivity. Qed.

Lemma exec_unsubscribe behaviour fuel cb arg w :
  Transition.exec behaviour fuel (Unsubscribe cb) arg w
  = Some (Intent.unsubscribe cb w).
Proof. by destruct fuel. Qed.

Lemma quiet_not_self_detaching behaviour a rest :
  behaviour a = Unsubscribe a :: rest → ¬ quiet behaviour a.
Proof. unfold quiet. intros ->. simpl. discriminate. Qed.

(** The fan-out when the subscriber at position [length l1] detaches itself
    as its first action and everybody else is quiet: the entries of [l1] are
    called, then [a]; the array shrinks under the loop, so the entry that
    followed [a] moves to the index just visited and is never called; the
    remaining entries of [l2] are called in order. *)
Lemma forEach_self_detach behaviour fuel (w : World)
    (l1 l2 : list CallbackId) (a : CallbackId) (rest : list Cmd) :
  subscribers w = l1 ++ a :: l2 →
  behaviour a = Unsubscribe a :: rest →
  forallb is_adapter rest = true →
  (∀ cb, cb ∈ l1 ++ l2 → quiet behaviour cb) →
  ∃ w', Transition.forEach (Transition.invoke behaviour fuel) w = Some w'
        ∧ state w' = state w
        ∧ subscribers w' = l1 ++ l2
        ∧ calls w'
          = calls w ++ map (λ cb, (cb, state w)) (l1 ++ a :: drop 1 l2).
Proof.
  intros Hs Ha Hrest Hq.
  assert (Hn1 : a ∉ l1).
  { intros Hin. apply (quiet_not_self_detaching behaviour a rest Ha).
    apply Hq, elem_of_app. by left. }
  unfold Transition.forEach. rewrite Hs, length_app. simpl length.
  rewrite forEach_from_add.
  (* the entries before [a] *)
  rewrite (forEach_from_quiet behaviour fuel (length l1) 0 w);
    rewrite Hs, drop_0, take_app_length.
  2:{ intros cb Hin. apply Hq, elem_of_app. by left. }
  destruct (fold_quiet_frame behaviour l1 w) as (Hst1 & Hsub1 & Hc1 & _).
  set (w1 := fold_left (quiet_call behaviour) l1 w) in *.
  (* [a] itself *)
  simpl Transition.forEach_from.
  rewrite Hsub1, Hs, list_lookup_middle by done.
  rewrite invoke_unfold, Ha. simpl Transition.run_body.
  rewrite exec_unsubscribe.
  rewrite (unsubscribe_first a _ l1 l2) by (simpl; congruence || done).
  rewrite run_body_adapters by done.
  set (w2 := fold_left (adapter_step (state w1)) rest _).
  destruct (adapter_steps_frame (state w1) rest
              (set_subscribers (l1 ++ l2)
                 (Transition.record_call a (state w1) w1)))
    as (Hst2 & Hsub2 & Hc2 & _).
  fold w2 in Hst2, Hsub2, Hc2. simpl in Hst2, Hsub2, Hc2.
  (* the entries after the one that was skipped *)
  assert (Hd : take (length l2) (drop (S (length l1)) (l1 ++ l2)) = drop 1 l2).
  { rewrite drop_app_ge by lia.
    replace (S (length l1) - length l1)%nat with 1%nat by lia.
    apply take_ge. rewrite length_drop. lia. }
  rewrite forEach_from_quiet; rewrite Hsub2, Hd.
  2:{ intros cb Hin. apply Hq, elem_of_app. right.
      by apply (subseteq_drop 1 l2). }
  destruct (fold_quiet_frame behaviour (drop 1 l2) w2)
    as (Hst3 & Hsub3 & Hc3 & _).
  eexists. split; [reflexivity|].
  rewrite Hst3, Hsub3, Hc3, Hst2, Hsub2, Hc2, Hc1, Hst1.
  repeat split; try done.
  rewrite map_app. simpl. by rewrite <- !app_assoc.
Qed.

Lemma spies_quiet (cb : CallbackId) : quiet spies cb.
Proof. reflexivity. Qed.

Lemma registry_users_no_reentry : no_reentry registry_users.
Proof.
  intros cb c Hin. unfold registry_users in Hin.
  destruct cb as [|[|cb]]; simpl in Hin;
    repeat (apply elem_of_cons in Hin as [->|Hin]; [reflexivity|]);
    by apply elem_of_nil in Hin.
Qed.

Lemma total_transition_coverage_witness :
  no_reentry registry_users
  ∧ ∃ w', Transition.dispatch registry_users 0 OComplete
            (set_state Failed
               (set_subscribers [0%nat; 1%nat; 2%nat]
                  (createIntent demo_config 0)))
          = Some w'
          ∧ state w' = target OComplete.
Proof.
  split; [exact registry_users_no_reentry|].
  apply (total_transition_coverage registry_users 0 Failed OComplete);
    [exact registry_users_no_reentry | reflexivity].
Defined.

(** C1, as stated, fails: the registry neither guards against nor forbids
    re-entrant use. Observer [0] detaches itself and calls [fail()] from
    inside its callback; [start()] on the intent observed by [0] and [1]
    returns with the intent failed, not started, and observer [1] is told so
    by the inner fan-out. *)
Example reentrant_subscriber_overrides_target :
  subscribers two_observers = [0%nat; 1%nat]
  ∧ reentrant 0%nat = [Unsubscribe 0%nat; Call OFail]
  ∧ ∃ w', Transition.start reentrant 1 two_observers = Some w'
          ∧ state w' = Failed
          ∧ state w' ≠ target OStart
          ∧ calls w' = [(0%nat, Started); (1%nat, Failed)].
Proof.
  split; [reflexivity|]. split; [reflexivity|].
  eexists. split; [reflexivity|]. split; [reflexivity|].
  split; [discriminate|reflexivity].
Qed.

(** A subscriber that calls [start()] on every notification never lets
    [start()] return: whatever the depth allowed, the stack overflows. *)
Example looping_subscriber_overflows (fuel : nat) :
  Transition.start looping fuel two_observers = None.
Proof.
  assert (H : ∀ w, subscribers w = [0%nat; 1%nat] →
              Transition.start looping fuel w = None).
  { induction fuel as [|fuel IH]; intros w Hs.
    - unfold Transition.start, Transition.start_with, Transition.forEach.
      simpl. rewrite Hs. simpl. rewrite Hs. reflexivity.
    - unfold Transition.start, Transition.start_with, Transition.forEach.
      simpl. rewrite Hs. simpl. rewrite Hs. simpl.
      rewrite invoke_unfold. simpl.
      change (Transition.start_with _ ?x)
        with (Transition.start looping fuel x).
      rewrite IH; [reflexivity|]. exact Hs. }
  by apply H.
Qed.

Lemma fanout_in_registration_order_witness :
  ∃ w', Transition.dispatch spies 0 OProgress
          (set_subscribers [4%nat; 2%nat; 4%nat] (createIntent demo_config 0))
        = Some w'
        ∧ state w' = target OProgress
        ∧ subscribers w' = [4%nat; 2%nat; 4%nat]
        ∧ calls w'
          = [] ++ map (λ cb, (cb, target OProgress)) [4%nat; 2%nat; 4%nat]
        ∧ ([4%nat; 2%nat; 4%nat] = [] →
           w' = set_state (target OProgress)
                  (set_subscribers [4%nat; 2%nat; 4%nat]
                     (createIntent demo_config 0))).
Proof.
  apply (fanout_in_registration_order spies 0 OProgress
           (set_subscribers [4%nat; 2%nat; 4%nat] (createIntent demo_config 0))).
  intros cb _. apply spies_quiet.
Defined.

(** C3, as stated, fails: observer [1] is registered after observer [0];
    observer [0] detaches itself as the first action of its callback; the
    fan-out of [start()] calls observer [0] and never calls observer [1]. *)
Lemma self_detach_skips_next_observer :
  subscribers two_observers = [0%nat; 1%nat]
  ∧ self_detaching 0%nat = [Unsubscribe 0%nat]
  ∧ ∃ w', Transition.start self_detaching 1 two_observers = Some w'
          ∧ state w' = Started
          ∧ subscribers w' = [1%nat]
          ∧ calls w' = [(0%nat, Started)]
          ∧ (1%nat, Started) ∉ calls w'.
Proof.
  simpl. split; [reflexivity|]. split; [reflexivity|].
  eexists. split; [reflexivity|]. simpl.
  repeat split. intros Hin.
  apply list_elem_of_singleton in Hin. discriminate.
Qed.

(** C3, amended. When an observer detaches itself as the first action of its
    callback and does nothing else to the intent afterwards (the rest of its
    body only updates composables' refs), and the other observers leave the
    intent alone, the observer registered immediately after it is skipped in
    that fan-out (if there is one); every other observer, before or after,
    is called exactly once, in registration order, with the post-transition
    state. *)
Theorem self_detach_skips_only_next
    (behaviour : CallbackId -> list Cmd) (fuel : nat) (O : Op) (w : World)
    (l1 l2 : list CallbackId) (a : CallbackId) (rest : list Cmd) :
  subscribers w = l1 ++ a :: l2 →
  behaviour a = Unsubscribe a :: rest →
  forallb is_adapter rest = true →
  (∀ cb, cb ∈ l1 ++ l2 → quiet behaviour cb) →
  ∃ w', Transition.dispatch behaviour fuel O w = Some w'
        ∧ state w' = target O
        ∧ subscribers w' = l1 ++ l2
        ∧ calls w'
          = calls w ++ map (λ cb, (cb, target O)) (l1 ++ a :: drop 1 l2).
Proof.
  intros Hs Ha Hrest Hq. rewrite dispatch_unfold.
  apply (forEach_self_detach behaviour fuel (set_state (target O) w)
           l1 l2 a rest); done.
Qed.

Lemma self_detach_skips_only_next_witness :
  ∃ w', Transition.dispatch self_detaching 0 OFail
          (set_subscribers [3%nat; 0%nat; 1%nat; 2%nat]
             (createIntent demo_config 0))
        = Some w'
        ∧ state w' = target OFail
        ∧ subscribers w' = [3%nat] ++ [1%nat; 2%nat]
        ∧ calls w'
          = [] ++ map (λ cb, (cb, target OFail))
                    ([3%nat] ++ 0%nat :: drop 1 [1%nat; 2%nat]).
Proof.
  apply (self_detach_skips_only_next self_detaching 0 OFail
           (set_subscribers [3%nat; 0%nat; 1%nat; 2%nat]
              (createIntent demo_config 0))
           [3%nat] [1%nat; 2%nat] 0%nat []);
    [reflexivity | reflexivity | reflexivity |].
  intros cb Hin.
  repeat (apply elem_of_cons in Hin as [->|Hin]; [reflexivity|]).
  by apply elem_of_nil in Hin.
Defined.

(** ** Handles *)

Lemma registrations_zero (cb : CallbackId) (l : list CallbackId) :
  registrations cb l = 0%nat → cb ∉ l.
Proof.
  unfold registrations. induction l as [|x l IH]; intros H0.
  - apply not_elem_of_nil.
  - rewrite filter_cons in H0. destruct (decide (x = cb)) as [->|Hne].
    + simpl in H0. lia.
    + apply not_elem_of_cons. split; [congruence|by apply IH].
Qed.

Lemma registrations_app (cb : CallbackId) (l1 l2 : list CallbackId) :
  registrations cb (l1 ++ l2)
  = (registrations cb l1 + registrations cb l2)%nat.
Proof. unfold registrations. by rewrite filter_app, length_app. Qed.

Lemma unsubscribe_iter_absent (cb : CallbackId) (w : World) (n : nat) :
  cb ∉ subscribers w → Nat.iter n (Intent.unsubscribe cb) w = w.
Proof.
  intros Hn. induction n as [|n IH]; simpl; [done|].
  rewrite IH. by apply unsubscribe_absent.
Qed.

(** A handle only ever removes entries of its own callback. *)
Lemma unsubscribe_others (cb : CallbackId) (w : World) :
  filter (λ x, x ≠ cb) (subscribers (Intent.unsubscribe cb w))
  = filter (λ x, x ≠ cb) (subscribers w).
Proof.
  destruct (decide (cb ∈ subscribers w)) as [Hin|Hn].
  - destruct (first_occurrence cb _ Hin) as (l1 & l2 & Hs & Hn1).
    rewrite (unsubscribe_first cb w l1 l2 Hs Hn1), Hs. simpl.
    rewrite !filter_app, filter_cons.
    by destruct (decide (cb ≠ cb)).
  - by rewrite unsubscribe_absent.
Qed.

(** C4, as stated, fails: the same function object is subscribed twice, the
    handle returned by the first subscription is invoked twice, and the
    second invocation removes the entry of the second subscription, which
    was still attached. *)
Lemma second_call_detaches_other_registration :
  subscribers twice_subscribed = [7%nat; 7%nat]
  ∧ subscribers (Intent.unsubscribe 7%nat twice_subscribed) = [7%nat]
  ∧ subscribers
      (Intent.unsubscribe 7%nat (Intent.unsubscribe 7%nat twice_subscribed))
    = []
  ∧ Intent.unsubscribe 7%nat (Intent.unsubscribe 7%nat twice_subscribed)
    ≠ Intent.unsubscribe 7%nat twice_subscribed.
Proof. repeat split. discriminate. Qed.

(** C4, amended. Invoking a handle again is a no-op whenever no entry of
    the same callback is attached at that moment, in particular when the
    callback was attached at most once before the first invocation; and in
    every case a handle returns normally and leaves the entries of every
    other callback in place, in order. *)
Theorem unsubscribe_idempotent_when_unique (cb : CallbackId) (w : World) :
  (registrations cb (subscribers w) ≤ 1)%nat →
  (∀ n, Nat.iter n (Intent.unsubscribe cb) (Intent.unsubscribe cb w)
        = Intent.unsubscribe cb w)
  ∧ (∀ n, filter (λ x, x ≠ cb)
            (subscribers (Nat.iter n (Intent.unsubscribe cb) w))
          = filter (λ x, x ≠ cb) (subscribers w))
  ∧ (∀ w', cb ∉ subscribers w' → Intent.unsubscribe cb w' = w').
Proof.
  intros Hone. split; [|split].
  - intros n. apply unsubscribe_iter_absent.
    destruct (decide (cb ∈ subscribers w)) as [Hin|Hn].
    + destruct (first_occurrence cb _ Hin) as (l1 & l2 & Hs & Hn1).
      rewrite (unsubscribe_first cb w l1 l2 Hs Hn1). simpl.
      rewrite Hs, registrations_app in Hone.
      unfold registrations in Hone at 2. rewrite filter_cons in Hone.
      destruct (decide (cb = cb)); [|done]. simpl in Hone.
      apply not_elem_of_app. split; [done|].
      apply registrations_zero. unfold registrations. lia.
    + by rewrite unsubscribe_absent.
  - intros n. induction n as [|n IH]; simpl; [done|].
    by rewrite unsubscribe_others.
  - intros w'. apply unsubscribe_absent.
Qed.

Lemma unsubscribe_idempotent_when_unique_witness :
  (∀ n, Nat.iter n (Intent.unsubscribe 1%nat)
          (Intent.unsubscribe 1%nat
             (set_subscribers [0%nat; 1%nat; 2%nat]
                (createIntent demo_config 0)))
        = Intent.unsubscribe 1%nat
            (set_subscribers [0%nat; 1%nat; 2%nat]
               (createIntent demo_config 0)))
  ∧ (∀ n, filter (λ x, x ≠ 1%nat)
            (subscribers
               (Nat.iter n (Intent.unsubscribe 1%nat)
                  (set_subscribers [0%nat; 1%nat; 2%nat]
                     (createIntent demo_config 0))))
          = filter (λ x, x ≠ 1%nat)
              (subscribers
                 (set_subscribers [0%nat; 1%nat; 2%nat]
                    (createIntent demo_config 0))))
  ∧ (∀ w', 1%nat ∉ subscribers w' → Intent.unsubscribe 1%nat w' = w').
Proof.
  apply (unsubscribe_idempotent_when_unique 1%nat
           (set_subscribers [0%nat; 1%nat; 2%nat]
              (createIntent demo_config 0))).
  vm_compute. lia.
Defined.

(** ** The same callback subscribed twice *)

Lemma subscribe_all_subscribers (mids : list CallbackId) (w : World) :
  subscribers (subscribe_all mids w) = subscribers w ++ mids.
Proof.
  unfold subscribe_all. revert w.
  induction mids as [|x mids IH]; intros w; simpl.
  - by rewrite app_nil_r.
  - rewrite IH. simpl. by rewrite <- app_assoc.
Qed.

Lemma subscribe_all_frame (mids : list CallbackId) (w : World) :
  subscribe_all mids w = set_subscribers (subscribers w ++ mids) w.
Proof.
  unfold subscribe_all. revert w.
  induction mids as [|x mids IH]; intros w; simpl.
  - rewrite app_nil_r. by destruct w.
  - rewrite IH. unfold set_subscribers. simpl. by rewrite <- app_assoc.
Qed.

(** C5, as stated, fails: callback [0] is subscribed, then callback [1],
    then callback [0] again. The handle returned by the third subscription
    removes the entry of the first one: the array is left as [[1; 0]], where
    detaching only the third registration leaves [[0; 1]]; and the next
    transition calls [1] before [0]. *)
Lemma handle_detaches_earliest_entry :
  subscribers interleaved = [0%nat; 1%nat; 0%nat]
  ∧ subscribers (Intent.unsubscribe 0%nat interleaved) = [1%nat; 0%nat]
  ∧ spec_detach_registration 2 (subscribers interleaved) = [0%nat; 1%nat]
  ∧ subscribers (Intent.unsubscribe 0%nat interleaved)
    ≠ spec_detach_registration 2 (subscribers interleaved)
  ∧ ∃ w', Transition.start spies 0 (Intent.unsubscribe 0%nat interleaved)
          = Some w'
          ∧ calls w' = [(1%nat, Started); (0%nat, Started)].
Proof.
  repeat split; try discriminate.
  eexists. split; reflexivity.
Qed.

(** C5, amended. On an intent whose observers, this callback included, all
    leave the intent alone (none subscribes, unsubscribes or calls a
    transition from inside its callback): subscribing a callback that is
    not registered yet twice, with any other subscriptions in between, puts
    two entries in the array, and every transition then calls the callback
    twice. The two handles are the same operation: invoking either once
    removes the earliest entry of the callback, so one entry remains and the
    callback is still called, once, by the following transitions. *)
Theorem same_callback_twice
    (behaviour : CallbackId -> list Cmd) (fuel : nat) (O : Op) (w : World)
    (cb : CallbackId) (mids : list CallbackId) :
  cb ∉ subscribers w →
  (∀ x, x ∈ subscribers w ++ cb :: mids → quiet behaviour x) →
  let w2 := Intent.subscribe cb (subscribe_all mids (Intent.subscribe cb w)) in
  let w1 := Intent.unsubscribe cb w2 in
  subscribers w2 = subscribers w ++ cb :: mids ++ [cb]
  ∧ (∃ w', Transition.dispatch behaviour fuel O w2 = Some w'
           ∧ calls w'
             = calls w ++ map (λ x, (x, target O))
                            (subscribers w ++ cb :: mids ++ [cb]))
  ∧ subscribers w1 = subscribers w ++ mids ++ [cb]
  ∧ (∃ w', Transition.dispatch behaviour fuel O w1 = Some w'
           ∧ calls w'
             = calls w ++ map (λ x, (x, target O))
                            (subscribers w ++ mids ++ [cb])).
Proof.
  intros Hfresh Hq w2 w1.
  assert (Hs2 : subscribers w2 = subscribers w ++ cb :: mids ++ [cb]).
  { unfold w2. simpl. rewrite subscribe_all_subscribers. simpl.
    by rewrite <- !app_assoc. }
  assert (Hw1 : w1 = set_subscribers (subscribers w ++ mids ++ [cb]) w2).
  { unfold w1. by apply unsubscribe_first. }
  assert (Hc2 : calls w2 = calls w).
  { unfold w2. by rewrite subscribe_all_frame. }
  assert (Hq2 : ∀ x, x ∈ subscribers w ++ cb :: mids ++ [cb] → quiet behaviour x).
  { intros x Hin. apply Hq. rewrite elem_of_app in Hin |- *.
    destruct Hin as [Hin|Hin]; [by left|right].
    rewrite elem_of_cons in Hin |- *. destruct Hin as [->|Hin]; [by left|].
    apply elem_of_app in Hin as [Hin|Hin]; [by right|].
    apply list_elem_of_singleton in Hin. by left. }
  split; [exact Hs2|]. split; [|split].
  - destruct (dispatch_quiet_calls behaviour fuel O w2)
      as (w' & Hrun & Hcalls).
    { rewrite Hs2. exact Hq2. }
    exists w'. split; [done|]. by rewrite Hcalls, Hs2, Hc2.
  - by rewrite Hw1.
  - destruct (dispatch_quiet_calls behaviour fuel O w1)
      as (w' & Hrun & Hcalls).
    { rewrite Hw1. simpl. intros x Hin. apply Hq2.
      rewrite elem_of_app in Hin |- *.
      destruct Hin as [Hin|Hin]; [by left|right]. by right. }
    exists w'. split; [done|]. rewrite Hcalls, Hw1. simpl.
    by rewrite subscribe_all_frame.
Qed.

Lemma same_callback_twice_witness :
  subscribers
    (Intent.subscribe 0%nat
       (subscribe_all [1%nat] (Intent.subscribe 0%nat one_observer)))
  = [3%nat; 0%nat; 1%nat; 0%nat]
  ∧ subscribers
      (Intent.unsubscribe 0%nat
         (Intent.subscribe 0%nat
            (subscribe_all [1%nat] (Intent.subscribe 0%nat one_observer))))
    = [3%nat; 1%nat; 0%nat]
  ∧ ∃ w', Transition.dispatch spies 0 OWait
            (Intent.unsubscribe 0%nat
               (Intent.subscribe 0%nat
                  (subscribe_all [1%nat] (Intent.subscribe 0%nat one_observer))))
          = Some w'
          ∧ calls w' = [(3%nat, Waiting); (1%nat, Waiting); (0%nat, Waiting)].
Proof.
  destruct (same_callback_twice spies 0 OWait one_observer 0%nat [1%nat])
    as (H2 & _ & H1 & Hrun); [| |exact (conj H2 (conj H1 Hrun))].
  - simpl. intros Hin. apply list_elem_of_singleton in Hin. discriminate.
  - intros x _. apply spies_quiet.
Defined.

(** ** Navigation protection *)

Section NavigationSync.

Variable behaviour : CallbackId -> list Cmd.

Lemma adapter_step_nav arg w c :
  nav_fresh w ∨ c = SyncNavigation → nav_fresh (adapter_step arg w c).
Proof.
  unfold nav_fresh. intros [Hf | ->]; [|reflexivity].
  destruct c; simpl; try exact Hf. reflexivity.
Qed.

Lemma adapter_steps_nav arg body w :
  nav_fresh w ∨ SyncNavigation ∈ body →
  nav_fresh (fold_left (adapter_step arg) body w).
Proof.
  revert w. induction body as [|c body IH]; intros w H; simpl.
  - destruct H as [H|H]; [done|by apply elem_of_nil in H].
  - apply IH. destruct H as [H|H].
    + left. apply adapter_step_nav. by left.
    + apply elem_of_cons in H as [<-|H]; [|by right].
      left. apply adapter_step_nav. by right.
Qed.

Lemma quiet_call_nav w cb :
  nav_fresh w ∨ SyncNavigation ∈ behaviour cb →
  nav_fresh (quiet_call behaviour w cb).
Proof.
  intros H. unfold quiet_call. apply adapter_steps_nav.
  destruct H as [H|H]; [left; exact H|by right].
Qed.

Lemma fold_quiet_nav l w :
  nav_fresh w ∨ (∃ cb, cb ∈ l ∧ SyncNavigation ∈ behaviour cb) →
  nav_fresh (fold_left (quiet_call behaviour) l w).
Proof.
  revert w. induction l as [|x l IH]; intros w H; simpl.
  - destruct H as [H|(cb & Hin & _)]; [done|by apply elem_of_nil in Hin].
  - apply IH. destruct H as [H|(cb & Hin & Hcb)].
    + left. apply quiet_call_nav. by left.
    + apply elem_of_cons in Hin as [->|Hin].
      * left. apply quiet_call_nav. by right.
      * right. by exists cb.
Qed.

(** One transition re-synchronises the refs when the closure of
    useIntentNavigation is among quiet subscribers. *)
Lemma dispatch_syncs_navigation fuel o w cb :
  (∀ x, x ∈ subscribers w → quiet behaviour x) →
  cb ∈ subscribers w →
  SyncNavigation ∈ behaviour cb →
  ∃ w', Transition.dispatch behaviour fuel o w = Some w'
        ∧ state w' = target o
        ∧ subscribers w' = subscribers w
        ∧ cfg w' = cfg w
        ∧ nav_fresh w'.
Proof.
  intros Hq Hin Hcb. rewrite dispatch_unfold, forEach_quiet by exact Hq.
  eexists. split; [reflexivity|].
  destruct (fold_quiet_frame behaviour
              (subscribers (set_state (target o) w))
              (set_state (target o) w)) as (-> & -> & _ & -> & _).
  repeat split. apply fold_quiet_nav. right. by exists cb.
Qed.

Lemma run_syncs_navigation fuel ops w cb :
  (∀ x, x ∈ subscribers w → quiet behaviour x) →
  cb ∈ subscribers w →
  SyncNavigation ∈ behaviour cb →
  nav_fresh w →
  ∃ w', Transition.run behaviour fuel ops w = Some w'
        ∧ cfg w' = cfg w
        ∧ nav_fresh w'.
Proof.
  revert w. induction ops as [|o ops IH]; intros w Hq Hin Hcb Hf; simpl.
  - by exists w.
  - destruct (dispatch_syncs_navigation fuel o w cb Hq Hin Hcb)
      as (w1 & -> & _ & Hs1 & Hc1 & Hf1).
    destruct (IH w1) as (w2 & -> & Hc2 & Hf2); rewrite ?Hs1; try done.
    exists w2. split; [done|]. split; [congruence|done].
Qed.

End NavigationSync.

Lemma protectionActive_fresh (w : World) :
  nav_fresh w →
  protectionActive (nav w) = Intent.protectNavigation w && Intent.isActive w.
Proof. unfold nav_fresh. by intros ->. Qed.

(** C6, as stated, fails over an intent that has no [subscribe] member:
    the refs are read once, at setup, in state idle; after [progress()] the
    intent answers [protectNavigation() = true] and [isActive() = true],
    and [protectionActive] is still false, [canLeave] still true. *)
Lemma navigation_stale_without_subscribe :
  subscribers (useIntentNavigation 9%nat (createIntent silent_config 0)) = []
  ∧ ∃ w2, Transition.progress navigation_observer 1
            (useIntentNavigation 9%nat (createIntent silent_config 0))
          = Some w2
          ∧ state w2 = InProgress
          ∧ Intent.protectNavigation w2 = true
          ∧ Intent.isActive w2 = true
          ∧ protectionActive (nav w2) = false
          ∧ canLeave (nav w2) = true.
Proof. split; [reflexivity|]. eexists. repeat split. Qed.

(** C6, amended. Over an intent that provides [subscribe], with the other
    observers leaving the intent alone: right after setup and after every
    transition, [protectionActive] is true exactly when the intent's
    [protectNavigation()] and [isActive()] are both true, and [canLeave] is
    its negation; with [protectNavigation()] constantly true,
    [protectionActive] is true and [canLeave] false after [progress()], and
    both flip after a subsequent [complete()]. *)
Theorem navigation_protection_tracks_intent
    (behaviour : CallbackId -> list Cmd) (fuel : nat) (w : World)
    (cb : CallbackId) :
  cfg_subscribe (cfg w) = true →
  behaviour cb = useIntentNavigation_callback →
  (∀ x, x ∈ subscribers w → quiet behaviour x) →
  let w1 := useIntentNavigation cb w in
  (∀ n : NavRefs, canLeave n = negb (protectionActive n))
  ∧ (∀ ops, ∃ w',
        Transition.run behaviour fuel ops w1 = Some w'
        ∧ protectionActive (nav w')
          = Intent.protectNavigation w' && Intent.isActive w'
        ∧ canLeave (nav w')
          = negb (Intent.protectNavigation w' && Intent.isActive w'))
  ∧ (Intent.protectNavigation w = true →
     ∃ w2 w3,
       Transition.progress behaviour fuel w1 = Some w2
       ∧ state w2 = InProgress
       ∧ protectionActive (nav w2) = true ∧ canLeave (nav w2) = false
       ∧ Transition.complete behaviour fuel w2 = Some w3
       ∧ state w3 = Completed
       ∧ protectionActive (nav w3) = false ∧ canLeave (nav w3) = true).
Proof.
  intros Hsub Hcb Hq w1.
  assert (Hs1 : subscribers w1 = subscribers w ++ [cb]).
  { unfold w1, useIntentNavigation, subscribe_if_available. simpl.
    by rewrite Hsub. }
  assert (Hc1 : cfg w1 = cfg w).
  { unfold w1, useIntentNavigation, subscribe_if_available. simpl.
    by rewrite Hsub. }
  assert (Hf1 : nav_fresh w1).
  { unfold w1, useIntentNavigation, subscribe_if_available. simpl.
    by rewrite Hsub. }
  assert (Hqcb : quiet behaviour cb).
  { unfold quiet. by rewrite Hcb. }
  assert (Hq1 : ∀ x, x ∈ subscribers w1 → quiet behaviour x).
  { intros x. rewrite Hs1. intros [Hin|Hin]%elem_of_app; [by apply Hq|].
    apply list_elem_of_singleton in Hin. by subst x. }
  assert (Hin1 : cb ∈ subscribers w1).
  { rewrite Hs1. apply elem_of_app. right. left. }
  assert (Hsync : SyncNavigation ∈ behaviour cb).
  { rewrite Hcb. left. }
  split; [done|]. split.
  - intros ops.
    destruct (run_syncs_navigation behaviour fuel ops w1 cb Hq1 Hin1 Hsync Hf1)
      as (w' & Hrun & _ & Hf).
    exists w'. split; [done|]. unfold canLeave.
    by rewrite (protectionActive_fresh w' Hf).
  - intros Hp.
    destruct (dispatch_syncs_navigation behaviour fuel OProgress w1 cb
                Hq1 Hin1 Hsync) as (w2 & Hrun2 & Hst2 & Hs2 & Hc2 & Hf2).
    destruct (dispatch_syncs_navigation behaviour fuel OComplete w2 cb)
      as (w3 & Hrun3 & Hst3 & Hs3 & Hc3 & Hf3); rewrite ?Hs2; try done.
    exists w2, w3. unfold canLeave.
    rewrite (protectionActive_fresh w2 Hf2), (protectionActive_fresh w3 Hf3).
    unfold Intent.protectNavigation, Intent.isActive in *.
    rewrite Hc3, Hc2, Hc1, Hp, Hst2, Hst3.
    repeat split; done.
Qed.

Lemma navigation_protection_tracks_intent_witness :
  ∃ w2 w3,
    Transition.progress navigation_observer 0
      (useIntentNavigation 9%nat (createIntent demo_config 0)) = Some w2
    ∧ state w2 = InProgress
    ∧ protectionActive (nav w2) = true ∧ canLeave (nav w2) = false
    ∧ Transition.complete navigation_observer 0 w2 = Some w3
    ∧ state w3 = Completed
    ∧ protectionActive (nav w3) = false ∧ canLeave (nav w3) = true.
Proof.
  destruct (navigation_protection_tracks_intent navigation_observer 0
              (createIntent demo_config 0) 9%nat) as (_ & _ & H);
    [reflexivity | reflexivity | | exact (H eq_refl)].
  simpl. by intros x Hin%elem_of_nil.
Defined.

(** ** Reset and replay *)



(** ** Derived predicates *)

(** C8. In each of the seven states the five predicates of the intent, and
    the five computed properties of useIntent, answer as the documented
    table says; they depend on the state alone; at most one is true, and
    none in idle. *)
Theorem derived_predicates_truth_table (w : World) (r : IntentRefs) :
  (Intent.isActive w, Intent.isCompleted w, Intent.isFailed w,
   Intent.isBlocked w, Intent.isWaiting w) = truth_row (state w)
  ∧ (useIntent_isActive r, useIntent_isCompleted r, useIntent_isFailed r,
     useIntent_isBlocked r, useIntent_isWaiting r) = truth_row (ref_state r)
  ∧ (Intent.isActive w = true ↔ state w = Started ∨ state w = InProgress)
  ∧ (Intent.isCompleted w = true ↔ state w = Completed)
  ∧ (Intent.isFailed w = true ↔ state w = Failed)
  ∧ (Intent.isBlocked w = true ↔ state w = Blocked)
  ∧ (Intent.isWaiting w = true ↔ state w = Waiting)
  ∧ (useIntent_isActive r = true
     ↔ ref_state r = Started ∨ ref_state r = InProgress)
  ∧ (useIntent_isCompleted r = true ↔ ref_state r = Completed)
  ∧ (useIntent_isFailed r = true ↔ ref_state r = Failed)
  ∧ (useIntent_isBlocked r = true ↔ ref_state r = Blocked)
  ∧ (useIntent_isWaiting r = true ↔ ref_state r = Waiting)
  ∧ (count_true (Intent.isActive w, Intent.isCompleted w, Intent.isFailed w,
                  Intent.isBlocked w, Intent.isWaiting w) ≤ 1)%nat
  ∧ (count_true (useIntent_isActive r, useIntent_isCompleted r,
                  useIntent_isFailed r, useIntent_isBlocked r,
                  useIntent_isWaiting r) ≤ 1)%nat
  ∧ (state w = Idle →
     count_true (Intent.isActive w, Intent.isCompleted w, Intent.isFailed w,
                 Intent.isBlocked w, Intent.isWaiting w) = 0%nat)
  ∧ (∀ w', state w' = state w →
       (Intent.isActive w', Intent.isCompleted w', Intent.isFailed w',
        Intent.isBlocked w', Intent.isWaiting w')
       = (Intent.isActive w, Intent.isCompleted w, Intent.isFailed w,
          Intent.isBlocked w, Intent.isWaiting w))
  ∧ ref_state (refs (useIntent_updateState w)) = state w.
Proof.
  unfold Intent.isActive, Intent.isCompleted, Intent.isFailed,
    Intent.isBlocked, Intent.isWaiting, useIntent_isActive,
    useIntent_isCompleted, useIntent_isFailed, useIntent_isBlocked,
    useIntent_isWaiting.
  repeat split; try (by destruct (state w)); try (by destruct (ref_state r));
    try (intros H; destruct (state w); simpl in H;
         (discriminate || tauto || reflexivity));
    try (intros H; destruct (ref_state r); simpl in H;
         (discriminate || tauto || reflexivity));
    try (intros [H|H]; rewrite H; reflexivity);
    try (intros ->; reflexivity).
  - destruct (state w); simpl; lia.
  - destruct (ref_state r); simpl; lia.
  - intros w' ->. reflexivity.
Qed.

(** ** The history kept by useIntentState *)

Lemma no_consecutive_repeat_snoc (l : list IntentState) (x : IntentState) :
  no_consecutive_repeat l = true →
  last l ≠ Some x →
  no_consecutive_repeat (l ++ [x]) = true.
Proof.
  induction l as [|a l IH]; intros Hl Hx; [done|].
  destruct l as [|b l].
  - simpl in *. rewrite bool_decide_eq_false_2; [done|congruence].
  - change ((a :: b :: l) ++ [x]) with (a :: (b :: l) ++ [x]).
    simpl in Hl. apply andb_true_iff in Hl as [Hab Hl].
    change (negb (bool_decide (a = b))
            && no_consecutive_repeat ((b :: l) ++ [x]) = true).
    rewrite Hab. simpl. apply IH; [done|]. by rewrite last_cons_cons in Hx.
Qed.

Lemma tracks_history (r : StateRefs) :
  tracks r →
  last (transitions r) = Some (currentState r)
  ∧ no_consecutive_repeat (transitions r) = true.
Proof.
  induction 1 as [s t | r t s _ [IHl IHn] | r t active _ [IHl IHn]].
  - done.
  - unfold useIntentState_updateState. case_bool_decide as Hne; [|done].
    simpl. split; [by rewrite last_snoc|].
    apply no_consecutive_repeat_snoc; [done|]. rewrite IHl. congruence.
  - unfold useIntentState_tick. by destruct active.
Qed.

Lemma updateState_same (t : Z) (r : StateRefs) :
  useIntentState_updateState t (currentState r) r = r.
Proof.
  unfold useIntentState_updateState. by rewrite bool_decide_eq_false_2 by tauto.
Qed.

(** One transition of an intent whose only subscriber is the closure of
    useIntentState. *)
Lemma dispatch_tracked behaviour fuel (o : Op) (w : World) (cb : CallbackId) :
  subscribers w = [cb] →
  behaviour cb = useIntentState_callback →
  Transition.dispatch behaviour fuel o w
  = Some (set_tracked
            (useIntentState_updateState (now w) (target o) (tracked w))
            (set_calls (calls w ++ [(cb, target o)])
               (set_state (target o) w))).
Proof.
  intros Hs Hcb. rewrite dispatch_unfold. unfold Transition.forEach.
  simpl. rewrite Hs. simpl. rewrite Hs. simpl.
  rewrite invoke_unfold, Hcb. simpl. by destruct fuel.
Qed.

Lemma run_cons behaviour fuel (o : Op) (ops : list Op) (w : World) :
  Transition.run behaviour fuel (o :: ops) w
  = match Transition.dispatch behaviour fuel o w with
    | Some w' => Transition.run behaviour fuel ops w'
    | None => None
    end.
Proof. reflexivity. Qed.

(** C9. A notification that carries the state useIntentState already tracks
    changes nothing: [previous], [transitions] and [duration] keep their
    values, and so does the rest of the store. Hence the history never holds
    two equal neighbours and ends with the tracked state; the sequence
    start, progress, progress, complete notifies four times and yields the
    history idle, started, in-progress, completed. *)
Theorem repeated_state_leaves_history (r : StateRefs) (t : Z) :
  tracks r →
  useIntentState_updateState t (currentState r) r = r
  ∧ (∀ behaviour fuel w,
       tracked w = r →
       Transition.exec behaviour fuel TrackState (currentState r) w = Some w)
  ∧ last (transitions r) = Some (currentState r)
  ∧ no_consecutive_repeat (transitions r) = true
  ∧ (∀ behaviour fuel config t0 cb,
       cfg_subscribe config = true →
       behaviour cb = useIntentState_callback →
       ∃ w', Transition.run behaviour fuel
               [OStart; OProgress; OProgress; OComplete]
               (useIntentState cb (createIntent config t0)) = Some w'
             ∧ calls w' = [(cb, Started); (cb, InProgress);
                           (cb, InProgress); (cb, Completed)]
             ∧ transitions (tracked w')
               = [Idle; Started; InProgress; Completed]
             ∧ currentState (tracked w') = Completed
             ∧ previous (tracked w') = Some InProgress).
Proof.
  intros Hr. split; [apply updateState_same|]. split.
  { intros behaviour fuel w <-.
    assert (Transition.exec behaviour fuel TrackState
              (currentState (tracked w)) w
            = Some (set_tracked
                      (useIntentState_updateState (now w)
                         (currentState (tracked w)) (tracked w)) w)) as ->
      by (by destruct fuel).
    rewrite updateState_same. by destruct w. }
  destruct (tracks_history r Hr) as [Hl Hn].
  split; [done|]. split; [done|].
  intros behaviour fuel config t0 cb Hsub Hcb.
  assert (useIntentState cb (createIntent config t0)
          = Intent.subscribe cb (createIntent config t0)) as ->.
  { unfold useIntentState, subscribe_if_available. simpl. by rewrite Hsub. }
  do 4 (rewrite run_cons, (dispatch_tracked behaviour fuel _ _ cb) by done;
        cbv beta iota).
  eexists. split; [reflexivity|]. by simpl.
Qed.

Lemma repeated_state_leaves_history_witness :
  useIntentState_updateState 40 InProgress tracked_after_progress
  = tracked_after_progress
  ∧ transitions tracked_after_progress = [Idle; Started; InProgress]
  ∧ last (transitions tracked_after_progress)
    = Some (currentState tracked_after_progress)
  ∧ no_consecutive_repeat (transitions tracked_after_progress) = true.
Proof.
  destruct (repeated_state_leaves_history tracked_after_progress 40)
    as (H1 & _ & H3 & H4 & _).
  - unfold tracked_after_progress. do 3 apply tracks_notified.
    apply tracks_setup.
  - exact (conj H1 (conj eq_refl (conj H3 H4))).
Defined.

(** ** The directive on an absent binding value *)

(** C10. When [binding.value] is null or undefined, [updateElement] and the
    [mounted] and [updated] hooks return at once: the element keeps its
    attributes, classes, style and private fields, nothing is subscribed,
    and the result does not depend on the store. *)
Theorem directive_ignores_absent_binding
    (cb : CallbackId) (el : Element) (modifier : option string) (w : World) :
  updateElement el (mkBinding BNull modifier) w = el
  ∧ updateElement el (mkBinding BUndefined modifier) w = el
  ∧ mounted cb el (mkBinding BNull modifier) w = (el, w)
  ∧ mounted cb el (mkBinding BUndefined modifier) w = (el, w)
  ∧ updated el (mkBinding BNull modifier) w = el
  ∧ updated el (mkBinding BUndefined modifier) w = el
  ∧ (∀ w', updateElement el (mkBinding BNull modifier) w'
           = updateElement el (mkBinding BNull modifier) w)
  ∧ (∀ w', updateElement el (mkBinding BUndefined modifier) w'
           = updateElement el (mkBinding BUndefined modifier) w).
Proof. repeat split. Qed.

(** With an intent as binding value the same hooks do act on the element
    and do subscribe. *)
Example directive_acts_on_intent :
  el_classList
    (updateElement demo_button (mkBinding BIntent None)
       (set_state Started (createIntent demo_config 0)))
  = ["btn"; "intent-active"]
  ∧ subscribers
      (mounted 4%nat demo_button (mkBinding BIntent (Some "loading"))
         (createIntent demo_config 0)).2
    = [4%nat]
  ∧ el_attributes
      (updateElement demo_button (mkBinding BIntent (Some "loading"))
         (set_state InProgress (createIntent demo_config 0)))
    !! "aria-busy" = Some "true".
Proof. repeat split. Qed.

(** * Further properties of the code *)

(** ** The subscriber array *)

Lemma indexOf_from_shift (l : list CallbackId) (cb : CallbackId) (i : Z) :
  cb ∈ l →
  Intent.indexOf_from l cb i = i + Intent.indexOf_from l cb 0.
Proof.
  intros Hin. destruct (first_occurrence cb l Hin) as (l1 & l2 & -> & Hn).
  rewrite !indexOf_from_first by done. lia.
Qed.

(** [indexOf] answers [-1] exactly when the callback is not in the
    array; otherwise it answers an index inside the array that holds the
    callback, and no smaller index holds it. *)
Theorem indexOf_finds_first (l : list CallbackId) (cb : CallbackId) :
  (Intent.indexOf l cb = -1 ↔ cb ∉ l)
  ∧ (-1 ≤ Intent.indexOf l cb < Z.of_nat (length l))
  ∧ (cb ∈ l →
     l !! Z.to_nat (Intent.indexOf l cb) = Some cb
     ∧ ∀ j, (j < Z.to_nat (Intent.indexOf l cb))%nat → l !! j ≠ Some cb).
Proof.
  unfold Intent.indexOf.
  destruct (decide (cb ∈ l)) as [Hin|Hn].
  - destruct (first_occurrence cb l Hin) as (l1 & l2 & -> & Hn1).
    rewrite indexOf_from_first by done. rewrite length_app. simpl.
    replace (Z.to_nat (0 + Z.of_nat (length l1))) with (length l1) by lia.
    split; [split; [lia|done]|]. split; [lia|]. intros _. split.
    + by apply list_lookup_middle.
    + intros j Hj Hl. rewrite lookup_app_l in Hl by done.
      apply Hn1. by eapply list_elem_of_lookup_2.
  - rewrite indexOf_from_absent by done.
    split; [done|]. split; [lia|]. done.
Qed.

Lemma subscribe_then_unsubscribe_aux (cb : CallbackId) (w : World) :
  cb ∉ subscribers w →
  Intent.unsubscribe cb (Intent.subscribe cb w) = w.
Proof.
  intros Hn.
  rewrite (unsubscribe_first cb (Intent.subscribe cb w) (subscribers w) []);
    [|done|done].
  rewrite app_nil_r. by destruct w.
Qed.

(** X1. Subscribing a callback and then invoking the handle gives back the
    store as it was when the callback was not in the array before; when it
    was, the array keeps its length but the entry removed is the earliest
    one, so the callback moves to the end. *)
Theorem subscribe_then_unsubscribe (cb : CallbackId) (w : World) :
  (cb ∉ subscribers w →
   Intent.unsubscribe cb (Intent.subscribe cb w) = w)
  ∧ (∀ l1 l2, subscribers w = l1 ++ cb :: l2 → cb ∉ l1 →
       subscribers (Intent.unsubscribe cb (Intent.subscribe cb w))
       = l1 ++ l2 ++ [cb])
  ∧ length (subscribers (Intent.unsubscribe cb (Intent.subscribe cb w)))
    = length (subscribers w).
Proof.
  split; [apply subscribe_then_unsubscribe_aux|].
  assert (Hmove : ∀ l1 l2, subscribers w = l1 ++ cb :: l2 → cb ∉ l1 →
            subscribers (Intent.unsubscribe cb (Intent.subscribe cb w))
            = l1 ++ l2 ++ [cb]).
  { intros l1 l2 Hs Hn1.
    rewrite (unsubscribe_first cb (Intent.subscribe cb w) l1 (l2 ++ [cb]));
      [done| |done].
    simpl. by rewrite Hs, <- app_assoc. }
  split; [exact Hmove|].
  destruct (decide (cb ∈ subscribers w)) as [Hin|Hn].
  - destruct (first_occurrence cb _ Hin) as (l1 & l2 & Hs & Hn1).
    rewrite (Hmove l1 l2 Hs Hn1), Hs, !length_app. simpl. lia.
  - by rewrite subscribe_then_unsubscribe_aux.
Qed.

Lemma subscribe_then_unsubscribe_witness :
  Intent.unsubscribe 4%nat (Intent.subscribe 4%nat two_observers)
  = two_observers.
Proof.
  apply (subscribe_then_unsubscribe 4%nat two_observers).
  vm_compute. intros Hin.
  repeat (apply elem_of_cons in Hin as [Hin|Hin]; [discriminate|]).
  by apply elem_of_nil in Hin.
Defined.

Lemma registrations_cons (cb x : CallbackId) (l : list CallbackId) :
  registrations cb (x :: l)
  = ((if decide (x = cb) then 1 else 0) + registrations cb l)%nat.
Proof.
  unfold registrations. rewrite filter_cons.
  by destruct (decide (x = cb)).
Qed.

Lemma registrations_absent (cb : CallbackId) (l : list CallbackId) :
  cb ∉ l → registrations cb l = 0%nat.
Proof.
  induction l as [|x l IH]; intros Hn; [done|].
  apply not_elem_of_cons in Hn as [Hx Hl].
  rewrite registrations_cons, IH by done.
  by destruct (decide (x = cb)); [congruence|].
Qed.

(** X2. A handle removes exactly one entry when its callback is in the
    array and none otherwise: the array gets shorter by one, the callback
    has one entry less, every other callback keeps all of its entries, and
    nothing but the array changes. Subscribing adds one entry at the end,
    whether or not the callback is already there. *)
Theorem handle_removes_one_entry (cb : CallbackId) (w : World) :
  length (subscribers (Intent.unsubscribe cb w))
  = (length (subscribers w) - (if decide (cb ∈ subscribers w) then 1 else 0))%nat
  ∧ registrations cb (subscribers (Intent.unsubscribe cb w))
    = (registrations cb (subscribers w) - 1)%nat
  ∧ (∀ other, other ≠ cb →
       registrations other (subscribers (Intent.unsubscribe cb w))
       = registrations other (subscribers w))
  ∧ Intent.unsubscribe cb w
    = set_subscribers (subscribers (Intent.unsubscribe cb w)) w
  ∧ registrations cb (subscribers (Intent.subscribe cb w))
    = S (registrations cb (subscribers w)).
Proof.
  assert (Hsub : registrations cb (subscribers (Intent.subscribe cb w))
                 = S (registrations cb (subscribers w))).
  { simpl. rewrite registrations_app, registrations_cons.
    destruct (decide (cb = cb)); [|done].
    change (registrations cb []) with 0%nat. lia. }
  revert Hsub. generalize (Intent.subscribe cb w). intros w1 Hsub.
  destruct (decide (cb ∈ subscribers w)) as [Hin|Hn].
  - destruct (first_occurrence cb _ Hin) as (l1 & l2 & Hs & Hn1).
    rewrite (unsubscribe_first cb w l1 l2 Hs Hn1). simpl.
    rewrite Hs, !length_app, !registrations_app, registrations_cons. simpl.
    destruct (decide (cb = cb)); [|done].
    repeat split; try lia; try done.
    + intros other Hne. rewrite !registrations_app, registrations_cons.
      by destruct (decide (cb = other)); [congruence|].
    + rewrite Hsub, Hs, registrations_app, registrations_cons.
      by destruct (decide (cb = cb)).
  - rewrite unsubscribe_absent by done.
    rewrite registrations_absent by done.
    repeat split; try lia; try done.
    + by destruct w.
    + rewrite Hsub. by rewrite registrations_absent.
Qed.

(** ** A subscriber that calls [subscribe] or a handle during the fan-out *)

Lemma exec_registry behaviour fuel c arg w :
  is_registry c = true →
  Transition.exec behaviour fuel c arg w = Some (registry_step c w).
Proof. by destruct c, fuel. Qed.

Lemma registry_step_frame (c : Cmd) (w : World) :
  state (registry_step c w) = state w
  ∧ calls (registry_step c w) = calls w
  ∧ cfg (registry_step c w) = cfg w.
Proof.
  destruct c; try done. simpl. unfold Intent.unsubscribe. by case_match.
Qed.

Lemma registry_step_subscribers (c : Cmd) (w1 w2 : World) :
  subscribers w1 = subscribers w2 →
  subscribers (registry_step c w1) = subscribers (registry_step c w2).
Proof.
  intros Hs. destruct c; simpl; try done.
  - by rewrite Hs.
  - unfold Intent.unsubscribe. rewrite Hs. by case_match.
Qed.

(** The fan-out when the subscriber at position [length l1] starts with one
    call to the registry and the entries visited before and after it are
    quiet: the loop still visits the indices it set out to visit, and finds
    there whatever the array holds by then. *)
Lemma forEach_registry_call behaviour fuel (w : World)
    (l1 l2 : list CallbackId) (a : CallbackId) (c : Cmd) (rest : list Cmd) :
  subscribers w = l1 ++ a :: l2 →
  behaviour a = c :: rest →
  is_registry c = true →
  forallb is_adapter rest = true →
  (∀ cb, cb ∈ l1 → quiet behaviour cb) →
  (∀ cb, cb ∈ take (length l2)
                (drop (S (length l1)) (subscribers (registry_step c w))) →
         quiet behaviour cb) →
  ∃ w', Transition.forEach (Transition.invoke behaviour fuel) w = Some w'
        ∧ state w' = state w
        ∧ subscribers w' = subscribers (registry_step c w)
        ∧ calls w'
          = calls w
            ++ map (λ cb, (cb, state w))
                 (l1 ++ a :: take (length l2)
                               (drop (S (length l1))
                                  (subscribers (registry_step c w)))).
Proof.
  intros Hs Ha Hc Hrest Hq1 Hq2.
  unfold Transition.forEach. rewrite Hs, length_app. simpl length.
  rewrite forEach_from_add.
  rewrite (forEach_from_quiet behaviour fuel (length l1) 0 w);
    rewrite Hs, drop_0, take_app_length; [|exact Hq1].
  destruct (fold_quiet_frame behaviour l1 w) as (Hst1 & Hsub1 & Hc1 & _).
  set (w1 := fold_left (quiet_call behaviour) l1 w) in *.
  simpl Transition.forEach_from.
  rewrite Hsub1, Hs, list_lookup_middle by done.
  rewrite invoke_unfold, Ha. simpl Transition.run_body.
  rewrite exec_registry by done.
  rewrite run_body_adapters by done.
  set (w1c := registry_step c (Transition.record_call a (state w1) w1)).
  assert (Hsubc : subscribers w1c = subscribers (registry_step c w)).
  { apply registry_step_subscribers. simpl. by rewrite Hsub1. }
  destruct (registry_step_frame c (Transition.record_call a (state w1) w1))
    as (Hstc & Hcc & _). fold w1c in Hstc, Hcc. simpl in Hstc, Hcc.
  set (w2 := fold_left (adapter_step (state w1)) rest w1c).
  destruct (adapter_steps_frame (state w1) rest w1c)
    as (Hst2 & Hsub2 & Hc2 & _). fold w2 in Hst2, Hsub2, Hc2.
  rewrite forEach_from_quiet; rewrite Hsub2, Hsubc; [|exact Hq2].
  destruct (fold_quiet_frame behaviour
              (take (length l2)
                 (drop (S (length l1)) (subscribers (registry_step c w)))) w2)
    as (Hst3 & Hsub3 & Hc3 & _).
  eexists. split; [reflexivity|].
  rewrite Hst3, Hsub3, Hc3, Hst2, Hsub2, Hc2, Hstc, Hcc, Hsubc, Hc1, Hst1.
  repeat split; try done.
  rewrite map_app. simpl. by rewrite <- !app_assoc.
Qed.

(** X3. When one observer's callback subscribes a further callback as its
    first action and does nothing else to the intent (the rest of its body
    only updates composables' refs), and the new callback and all other
    observers leave the intent alone, the new callback is not called in the
    running fan-out, which calls the entries that were there when it began,
    each once and in order; the new callback is called, once and last, by
    the next transition. *)
Theorem subscribed_during_fanout_waits
    (behaviour : CallbackId -> list Cmd) (fuel : nat) (O O' : Op) (w : World)
    (l1 l2 : list CallbackId) (a b : CallbackId) (rest : list Cmd) :
  subscribers w = l1 ++ a :: l2 →
  behaviour a = Subscribe b :: rest →
  forallb is_adapter rest = true →
  (∀ cb, cb ∈ b :: l1 ++ l2 → quiet behaviour cb) →
  ∃ w' w'',
    Transition.dispatch behaviour fuel O w = Some w'
    ∧ subscribers w' = l1 ++ a :: l2 ++ [b]
    ∧ calls w' = calls w ++ map (λ cb, (cb, target O)) (l1 ++ a :: l2)
    ∧ Transition.dispatch behaviour fuel O' w' = Some w''
    ∧ calls w''
      = calls w' ++ map (λ cb, (cb, target O')) (l1 ++ a :: l2 ++ [b]).
Proof.
  intros Hs Ha Hrest Hq.
  assert (Hq1 : ∀ cb, cb ∈ l1 → quiet behaviour cb).
  { intros cb Hin. apply Hq. right. apply elem_of_app. by left. }
  assert (Hq2 : ∀ cb, cb ∈ l2 ++ [b] → quiet behaviour cb).
  { intros cb [Hin|Hin]%elem_of_app.
    - apply Hq. right. apply elem_of_app. by right.
    - apply list_elem_of_singleton in Hin as ->. apply Hq. left. }
  assert (Htake : ∀ l, take (length l2)
                    (drop (S (length l1)) ((l1 ++ a :: l2) ++ l)) = l2).
  { intros l. rewrite <- app_assoc. rewrite drop_app_ge by lia.
    replace (S (length l1) - length l1)%nat with 1%nat by lia. simpl.
    by rewrite drop_0, take_app_length. }
  destruct (forEach_registry_call behaviour fuel (set_state (target O) w)
              l1 l2 a (Subscribe b) rest) as (w' & Hrun & Hst & Hsub & Hcalls);
    try done.
  { simpl. rewrite Hs, Htake. intros cb Hin. apply Hq2, elem_of_app. by left. }
  simpl in Hsub, Hcalls. rewrite Hs in Hsub, Hcalls. rewrite Htake in Hcalls.
  rewrite <- app_assoc in Hsub. simpl in Hsub.
  destruct (forEach_registry_call behaviour fuel (set_state (target O') w')
              l1 (l2 ++ [b]) a (Subscribe b) rest)
    as (w'' & Hrun' & Hst' & Hsub' & Hcalls'); try done.
  { simpl. rewrite Hsub. rewrite <- (app_assoc l1 (a :: l2 ++ [b]) [b]).
    rewrite drop_app_ge by lia.
    replace (S (length l1) - length l1)%nat with 1%nat by lia. simpl.
    rewrite drop_0, take_app_length. exact Hq2. }
  simpl in Hcalls'. rewrite Hsub in Hcalls'.
  rewrite <- (app_assoc l1 (a :: l2 ++ [b]) [b]) in Hcalls'.
  rewrite drop_app_ge in Hcalls' by lia.
  replace (S (length l1) - length l1)%nat with 1%nat in Hcalls' by lia.
  simpl in Hcalls'. rewrite drop_0, take_app_length in Hcalls'.
  exists w', w''. rewrite !dispatch_unfold. by repeat split.
Qed.

Lemma subscribed_during_fanout_waits_witness :
  ∃ w' w'',
    Transition.dispatch late_subscriber 0 OStart two_observers = Some w'
    ∧ subscribers w' = [] ++ 0%nat :: [1%nat] ++ [5%nat]
    ∧ calls w'
      = calls two_observers
        ++ map (λ cb, (cb, target OStart)) ([] ++ 0%nat :: [1%nat])
    ∧ Transition.dispatch late_subscriber 0 OComplete w' = Some w''
    ∧ calls w''
      = calls w'
        ++ map (λ cb, (cb, target OComplete))
             ([] ++ 0%nat :: [1%nat] ++ [5%nat]).
Proof.
  apply (subscribed_during_fanout_waits late_subscriber 0 OStart OComplete
           two_observers [] [1%nat] 0%nat 5%nat []);
    [reflexivity | reflexivity | reflexivity |].
  intros cb Hin.
  repeat (apply elem_of_cons in Hin as [->|Hin]; [reflexivity|]).
  by apply elem_of_nil in Hin.
Defined.

(** X4. When one observer's callback detaches, as its first action, an
    observer whose earliest entry comes after its own, and does nothing else
    to the intent (the rest of its body only updates composables' refs),
    and the observers at all other entries leave the intent alone, the
    detached entry is not called in the running fan-out and nobody else is
    skipped: every other entry is called once, in order. *)
Theorem detaching_later_observer
    (behaviour : CallbackId -> list Cmd) (fuel : nat) (O : Op) (w : World)
    (l1 l2 l3 : list CallbackId) (a b : CallbackId) (rest : list Cmd) :
  subscribers w = l1 ++ a :: l2 ++ b :: l3 →
  behaviour a = Unsubscribe b :: rest →
  forallb is_adapter rest = true →
  b ≠ a → b ∉ l1 → b ∉ l2 →
  (∀ cb, cb ∈ l1 ++ l2 ++ l3 → quiet behaviour cb) →
  ∃ w', Transition.dispatch behaviour fuel O w = Some w'
        ∧ state w' = target O
        ∧ subscribers w' = l1 ++ a :: l2 ++ l3
        ∧ calls w'
          = calls w ++ map (λ cb, (cb, target O)) (l1 ++ a :: l2 ++ l3).
Proof.
  intros Hs Ha Hrest Hba Hb1 Hb2 Hq.
  assert (Hun : subscribers
                  (registry_step (Unsubscribe b) (set_state (target O) w))
                = (l1 ++ a :: l2) ++ l3).
  { simpl. rewrite (unsubscribe_first b _ (l1 ++ a :: l2) l3); [done| |].
    - simpl. by rewrite Hs, <- app_assoc.
    - rewrite not_elem_of_app, not_elem_of_cons. done. }
  assert (Htake : take (length (l2 ++ b :: l3))
                    (drop (S (length l1)) ((l1 ++ a :: l2) ++ l3))
                  = l2 ++ l3).
  { rewrite <- app_assoc. rewrite drop_app_ge by lia.
    replace (S (length l1) - length l1)%nat with 1%nat by lia. simpl.
    rewrite drop_0. apply take_ge. rewrite !length_app. simpl. lia. }
  rewrite dispatch_unfold.
  destruct (forEach_registry_call behaviour fuel (set_state (target O) w)
              l1 (l2 ++ b :: l3) a (Unsubscribe b) rest)
    as (w' & Hrun & Hst & Hsub & Hcalls); try done.
  { intros cb Hin. apply Hq, elem_of_app. by left. }
  { rewrite Hun, Htake. intros cb Hin. apply Hq, elem_of_app. by right. }
  rewrite Hun in Hsub, Hcalls. rewrite Htake in Hcalls.
  exists w'. rewrite <- app_assoc in Hsub. by repeat split.
Qed.

Lemma detaching_later_observer_witness :
  ∃ w', Transition.dispatch detaches_later 0 OBlock four_observers = Some w'
        ∧ state w' = target OBlock
        ∧ subscribers w' = [] ++ 0%nat :: [1%nat] ++ [3%nat]
        ∧ calls w'
          = calls four_observers
            ++ map (λ cb, (cb, target OBlock)) ([] ++ 0%nat :: [1%nat] ++ [3%nat]).
Proof.
  apply (detaching_later_observer detaches_later 0 OBlock four_observers
           [] [1%nat] [3%nat] 0%nat 2%nat []);
    [reflexivity | reflexivity | reflexivity | discriminate | | |].
  - apply not_elem_of_nil.
  - intros Hin%list_elem_of_singleton. discriminate.
  - intros cb Hin.
    repeat (apply elem_of_cons in Hin as [->|Hin]; [reflexivity|]).
    by apply elem_of_nil in Hin.
Defined.

(** X5. When one observer's callback detaches, as its first action, an
    observer whose earliest entry comes before its own, which the running
    fan-out has already called, and does nothing else to the intent (the
    rest of its body only updates composables' refs), and all other
    observers, the detached one included, leave the intent alone, the array
    shifts under the loop just as when a callback detaches itself: the
    observer registered immediately after the caller is skipped, and the
    others are called once, in order. *)
Theorem detaching_earlier_observer
    (behaviour : CallbackId -> list Cmd) (fuel : nat) (O : Op) (w : World)
    (l0 l1 l2 : list CallbackId) (a b : CallbackId) (rest : list Cmd) :
  subscribers w = l0 ++ b :: l1 ++ a :: l2 →
  behaviour a = Unsubscribe b :: rest →
  forallb is_adapter rest = true →
  b ∉ l0 →
  (∀ cb, cb ∈ l0 ++ b :: l1 ++ l2 → quiet behaviour cb) →
  ∃ w', Transition.dispatch behaviour fuel O w = Some w'
        ∧ state w' = target O
        ∧ subscribers w' = l0 ++ l1 ++ a :: l2
        ∧ calls w'
          = calls w
            ++ map (λ cb, (cb, target O)) (l0 ++ b :: l1 ++ a :: drop 1 l2).
Proof.
  intros Hs Ha Hrest Hb0 Hq.
  assert (Hs' : subscribers w = (l0 ++ b :: l1) ++ a :: l2).
  { by rewrite Hs, <- app_assoc. }
  assert (Hun : subscribers
                  (registry_step (Unsubscribe b) (set_state (target O) w))
                = (l0 ++ l1) ++ a :: l2).
  { simpl. rewrite (unsubscribe_first b _ l0 (l1 ++ a :: l2)); [|done|done].
    simpl. by rewrite <- app_assoc. }
  assert (Htake : take (length l2)
                    (drop (S (length (l0 ++ b :: l1)))
                       ((l0 ++ l1) ++ a :: l2))
                  = drop 1 l2).
  { rewrite drop_app_ge by (rewrite !length_app; simpl; lia).
    replace (S (length (l0 ++ b :: l1)) - length (l0 ++ l1))%nat
      with 2%nat by (rewrite !length_app; simpl; lia).
    simpl. apply take_ge. rewrite length_drop. lia. }
  rewrite dispatch_unfold.
  destruct (forEach_registry_call behaviour fuel (set_state (target O) w)
              (l0 ++ b :: l1) l2 a (Unsubscribe b) rest)
    as (w' & Hrun & Hst & Hsub & Hcalls); try done.
  { intros cb Hin. apply Hq.
    rewrite elem_of_app, elem_of_cons, elem_of_app.
    apply elem_of_app in Hin as [Hin|Hin]; [by left|].
    apply elem_of_cons in Hin as [->|Hin]; right; [by left|right; by left]. }
  { rewrite Hun, Htake. intros cb Hin. apply Hq.
    rewrite elem_of_app, elem_of_cons, elem_of_app. right. right. right.
    by apply (subseteq_drop 1 l2). }
  rewrite Hun in Hsub, Hcalls. rewrite Htake in Hcalls.
  exists w'. rewrite <- !app_assoc in Hsub, Hcalls. simpl in Hcalls.
  by repeat split.
Qed.

Lemma detaching_earlier_observer_witness :
  ∃ w', Transition.dispatch detaches_earlier 0 OWait four_observers = Some w'
        ∧ state w' = target OWait
        ∧ subscribers w' = [] ++ [] ++ 1%nat :: [2%nat; 3%nat]
        ∧ calls w'
          = calls four_observers
            ++ map (λ cb, (cb, target OWait))
                 ([] ++ 0%nat :: [] ++ 1%nat :: drop 1 [2%nat; 3%nat]).
Proof.
  apply (detaching_earlier_observer detaches_earlier 0 OWait four_observers
           [] [] [2%nat; 3%nat] 1%nat 0%nat []);
    [reflexivity | reflexivity | reflexivity | |].
  - apply not_elem_of_nil.
  - intros cb Hin.
    repeat (apply elem_of_cons in Hin as [->|Hin]; [reflexivity|]).
    by apply elem_of_nil in Hin.
Defined.

(** ** The composables follow the intent *)

Section Synced.

Variable behaviour : CallbackId -> list Cmd.

Lemma adapter_step_synced (c c' : Cmd) (w : World) :
  is_adapter c = true →
  synced c w ∨ c' = c →
  synced c (adapter_step (state w) w c').
Proof.
  intros Hc [Hs | ->].
  - destruct c; try discriminate; destruct c'; simpl in *; try done.
    unfold useIntentState_updateState. case_bool_decide; simpl; [done|].
    exact Hs.
  - destruct c; try discriminate; simpl; try done.
    unfold useIntentState_updateState. case_bool_decide as Hne; simpl; [done|].
    destruct (decide (state w = currentState (tracked w))); [done|].
    by destruct Hne.
Qed.

Lemma adapter_steps_synced (c : Cmd) (arg : IntentState) (body : list Cmd)
    (w : World) :
  is_adapter c = true →
  arg = state w →
  synced c w ∨ c ∈ body →
  synced c (fold_left (adapter_step arg) body w).
Proof.
  intros Hc. revert w. induction body as [|c' body IH]; intros w Harg H; simpl.
  - destruct H as [H|H]; [done|by apply elem_of_nil in H].
  - apply IH.
    + destruct (adapter_step_frame arg w c') as (-> & _). exact Harg.
    + subst arg. destruct H as [H|H].
      * left. apply adapter_step_synced; [done|by left].
      * apply elem_of_cons in H as [->|H]; [|by right].
        left. apply adapter_step_synced; [done|by right].
Qed.

Lemma record_call_synced (c : Cmd) (cb : CallbackId) (arg : IntentState)
    (w : World) :
  synced c w → synced c (Transition.record_call cb arg w).
Proof. by destruct c. Qed.

Lemma quiet_call_synced (c : Cmd) (w : World) (cb : CallbackId) :
  is_adapter c = true →
  synced c w ∨ c ∈ behaviour cb →
  synced c (quiet_call behaviour w cb).
Proof.
  intros Hc H. unfold quiet_call. apply adapter_steps_synced; [done|done|].
  destruct H as [H|H]; [left; by apply record_call_synced|by right].
Qed.

Lemma fold_quiet_synced (c : Cmd) (l : list CallbackId) (w : World) :
  is_adapter c = true →
  synced c w ∨ (∃ cb, cb ∈ l ∧ c ∈ behaviour cb) →
  synced c (fold_left (quiet_call behaviour) l w).
Proof.
  intros Hc. revert w. induction l as [|x l IH]; intros w H; simpl.
  - destruct H as [H|(cb & Hin & _)]; [done|by apply elem_of_nil in Hin].
  - apply IH. destruct H as [H|(cb & Hin & Hcb)].
    + left. apply quiet_call_synced; [done|by left].
    + apply elem_of_cons in Hin as [->|Hin].
      * left. apply quiet_call_synced; [done|by right].
      * right. by exists cb.
Qed.

Lemma dispatch_synced (c : Cmd) fuel (o : Op) (w : World) (cb : CallbackId) :
  is_adapter c = true →
  (∀ x, x ∈ subscribers w → quiet behaviour x) →
  cb ∈ subscribers w →
  c ∈ behaviour cb →
  ∃ w', Transition.dispatch behaviour fuel o w = Some w'
        ∧ state w' = target o
        ∧ subscribers w' = subscribers w
        ∧ cfg w' = cfg w
        ∧ synced c w'.
Proof.
  intros Hc Hq Hin Hcb. rewrite dispatch_unfold, forEach_quiet by exact Hq.
  eexists. split; [reflexivity|].
  destruct (fold_quiet_frame behaviour
              (subscribers (set_state (target o) w))
              (set_state (target o) w)) as (-> & -> & _ & -> & _).
  repeat split. apply fold_quiet_synced; [done|]. right. by exists cb.
Qed.

Lemma run_at_synced (c : Cmd) fuel (ops : list (Z * Op)) (w : World)
    (cb : CallbackId) :
  is_adapter c = true →
  (∀ x, x ∈ subscribers w → quiet behaviour x) →
  cb ∈ subscribers w →
  c ∈ behaviour cb →
  synced c w →
  ∃ w', run_at behaviour fuel ops w = Some w'
        ∧ subscribers w' = subscribers w
        ∧ cfg w' = cfg w
        ∧ synced c w'.
Proof.
  intros Hc. revert w.
  induction ops as [|[t o] ops IH]; intros w Hq Hin Hcb Hs; simpl.
  - by exists w.
  - destruct (dispatch_synced c fuel o (set_now t w) cb Hc)
      as (w1 & -> & _ & Hs1 & Hc1 & Hf1); try done.
    simpl in Hs1, Hc1.
    destruct (IH w1) as (w2 & -> & Hs2 & Hc2 & Hf2); rewrite ?Hs1; try done.
    exists w2. split; [done|]. split; [congruence|]. split; [congruence|done].
Qed.

End Synced.

(** X6. With the observers leaving the intent alone and the closure of a
    composable among them, every transition of the intent, however it is
    called, leaves that composable's refs equal to what the intent answers:
    [state], [allowed] and [message] of useIntent, [isActive] and
    [protectNavigation] of useIntentNavigation, [currentState] of
    useIntentState. *)
Theorem composables_follow_transitions
    (behaviour : CallbackId -> list Cmd) (fuel : nat) (c : Cmd)
    (t : Z) (o : Op) (ops : list (Z * Op)) (w : World) (cb : CallbackId) :
  is_adapter c = true →
  (∀ x, x ∈ subscribers w → quiet behaviour x) →
  cb ∈ subscribers w →
  c ∈ behaviour cb →
  ∃ w', run_at behaviour fuel ((t, o) :: ops) w = Some w'
        ∧ subscribers w' = subscribers w
        ∧ synced c w'.
Proof.
  intros Hc Hq Hin Hcb. simpl.
  destruct (dispatch_synced behaviour c fuel o (set_now t w) cb Hc)
    as (w1 & -> & _ & Hs1 & Hc1 & Hf1); try done.
  simpl in Hs1.
  destruct (run_at_synced behaviour c fuel ops w1 cb Hc)
    as (w2 & -> & Hs2 & _ & Hf2); rewrite ?Hs1; try done.
  exists w2. split; [done|]. split; [congruence|done].
Qed.

Lemma composables_follow_transitions_witness :
  ∃ w', run_at composables 0 [(5, OStart); (9, OFail)] four_observers
        = Some w'
        ∧ subscribers w' = subscribers four_observers
        ∧ refs w'
          = mkIntentRefs (state w') (Intent.allowed w') (Intent.message w').
Proof.
  apply (composables_follow_transitions composables 0 SyncIntentRefs
           5 OStart [(9, OFail)] four_observers 1%nat).
  - reflexivity.
  - intros x Hin.
    repeat (apply elem_of_cons in Hin as [->|Hin]; [reflexivity|]).
    by apply elem_of_nil in Hin.
  - right. left.
  - left.
Defined.

(** ** The action methods of useIntent *)

Section NoReentryConfig.

Variable behaviour : CallbackId -> list Cmd.
Hypothesis Hno : no_reentry behaviour.

Lemma exec_no_call_cfg fuel c arg w :
  is_call c = false →
  ∃ w', Transition.exec behaviour fuel c arg w = Some w'
        ∧ state w' = state w ∧ cfg w' = cfg w.
Proof.
  intros Hc. destruct (is_registry c) eqn:Hr.
  - rewrite exec_registry by done. eexists. split; [reflexivity|].
    by destruct (registry_step_frame c w) as (-> & _ & ->).
  - assert (Ha : is_adapter c = true) by (by destruct c).
    rewrite exec_adapter by done. eexists. split; [reflexivity|].
    by destruct (adapter_step_frame arg w c) as (-> & _ & _ & -> & _).
Qed.

Lemma run_body_no_call_cfg fuel arg body w :
  (∀ c, c ∈ body → is_call c = false) →
  ∃ w', Transition.run_body (Transition.exec behaviour fuel) arg body w
        = Some w'
        ∧ state w' = state w ∧ cfg w' = cfg w.
Proof.
  revert w. induction body as [|c body IH]; intros w Hb; simpl.
  - by exists w.
  - destruct (exec_no_call_cfg fuel c arg w) as (w1 & -> & H1 & H1').
    { apply Hb. left. }
    destruct (IH w1) as (w2 & -> & H2 & H2').
    { intros c' Hin. apply Hb. by right. }
    exists w2. split; [done|]. split; congruence.
Qed.

Lemma forEach_from_no_call_cfg fuel n k w :
  ∃ w', Transition.forEach_from (Transition.invoke behaviour fuel) n k w
        = Some w'
        ∧ state w' = state w ∧ cfg w' = cfg w.
Proof.
  revert k w. induction n as [|n IH]; intros k w; simpl.
  - by exists w.
  - destruct (subscribers w !! k) as [cb|]; [|apply IH].
    rewrite invoke_unfold.
    destruct (run_body_no_call_cfg fuel (state w) (behaviour cb)
                (Transition.record_call cb (state w) w))
      as (w1 & -> & H1 & H1').
    { intros c Hin. by apply (Hno cb). }
    destruct (IH (S k) w1) as (w2 & -> & H2 & H2').
    simpl in H1, H1'.
    exists w2. split; [done|]. split; congruence.
Qed.

End NoReentryConfig.

(** X7. Each action method useIntent returns leaves the refs in step with
    the intent, whether or not the intent has a [subscribe] member: after the
    call [state.value] is the target of the operation, [message.value] is
    the intent's message for that state and [allowed.value] its permission.
    No subscriber re-enters the intent. *)
Theorem action_methods_sync_refs
    (behaviour : CallbackId -> list Cmd) (fuel : nat) (o : Op) (w : World) :
  no_reentry behaviour →
  ∃ w', useIntent_action behaviour fuel o w = Some w'
        ∧ state w' = target o
        ∧ refs w'
          = mkIntentRefs (target o) (Intent.allowed w)
              (cfg_id (cfg w) +:+ " is " +:+ state_name (target o))
        ∧ useIntent_isActive (refs w')
          = bool_decide (target o = Started)
            || bool_decide (target o = InProgress)
        ∧ useIntent_isCompleted (refs w')
          = bool_decide (target o = Completed).
Proof.
  intros Hno. unfold useIntent_action. rewrite dispatch_unfold.
  unfold Transition.forEach.
  destruct (forEach_from_no_call_cfg behaviour Hno fuel
              (length (subscribers (set_state (target o) w))) 0
              (set_state (target o) w)) as (w1 & -> & Hst & Hcfg).
  simpl in Hst, Hcfg. eexists. split; [reflexivity|].
  unfold useIntent_isActive, useIntent_isCompleted. simpl.
  unfold Intent.allowed, Intent.message. rewrite Hst, Hcfg.
  repeat split.
Qed.

Lemma action_methods_sync_refs_witness :
  ∃ w', useIntent_action registry_users 0 OProgress
          (set_subscribers [0%nat; 2%nat] (createIntent silent_config 0))
        = Some w'
        ∧ state w' = InProgress
        ∧ refs w' = mkIntentRefs InProgress true "upload is in-progress"
        ∧ useIntent_isActive (refs w') = true
        ∧ useIntent_isCompleted (refs w') = false.
Proof.
  apply (action_methods_sync_refs registry_users 0 OProgress
           (set_subscribers [0%nat; 2%nat] (createIntent silent_config 0))).
  exact registry_users_no_reentry.
Defined.

(** ** Unmounting a composable *)

Lemma fold_spies_frame behaviour (l : list CallbackId) (w : World) :
  (∀ x, x ∈ l → behaviour x = []) →
  nav (fold_left (quiet_call behaviour) l w) = nav w
  ∧ refs (fold_left (quiet_call behaviour) l w) = refs w
  ∧ tracked (fold_left (quiet_call behaviour) l w) = tracked w.
Proof.
  revert w. induction l as [|x l IH]; intros w Hs; simpl; [done|].
  destruct (IH (quiet_call behaviour w x)) as (-> & -> & ->).
  { intros y Hin. apply Hs. by right. }
  unfold quiet_call. rewrite (Hs x) by left. done.
Qed.

(** X8. Setting a composable up and unmounting it leaves the subscriber
    array as it was, with or without a [subscribe] member, provided its
    closure was not in the array before; the refs keep the values read at
    setup, and a later transition over the remaining observers, if they are
    mere observers, does not write them any more. *)
Theorem setup_then_unmount
    (behaviour : CallbackId -> list Cmd) (fuel : nat) (o : Op)
    (cb : CallbackId) (w : World) :
  cb ∉ subscribers w →
  (∀ x, x ∈ subscribers w → behaviour x = []) →
  onUnmounted cb (useIntent cb w) = useIntent_updateState w
  ∧ onUnmounted cb (useIntentNavigation cb w) = useIntentNavigation_sync w
  ∧ onUnmounted cb (useIntentState cb w)
    = set_tracked (mkStateRefs (state w) None [state w] 0 (now w)) w
  ∧ subscribers (onUnmounted cb (useIntent cb w)) = subscribers w
  ∧ ∃ w', Transition.dispatch behaviour fuel o
            (onUnmounted cb (useIntentNavigation cb w)) = Some w'
          ∧ state w' = target o
          ∧ nav w' = mkNavRefs (Intent.isActive w) (Intent.protectNavigation w).
Proof.
  intros Hn Hspies.
  assert (Hround : ∀ w0, subscribers w0 = subscribers w →
                     onUnmounted cb (subscribe_if_available cb w0) = w0).
  { intros w0 Hs0. unfold onUnmounted, subscribe_if_available.
    destruct (cfg_subscribe (cfg w0)) eqn:Hsub; simpl; rewrite Hsub; [|done].
    apply subscribe_then_unsubscribe_aux. by rewrite Hs0. }
  unfold useIntent, useIntentNavigation, useIntentState.
  rewrite !Hround by done.
  repeat split.
  rewrite dispatch_unfold, forEach_quiet.
  2:{ intros x Hin. unfold quiet. by rewrite (Hspies x Hin). }
  eexists. split; [reflexivity|].
  destruct (fold_quiet_frame behaviour
              (subscribers (set_state (target o) (useIntentNavigation_sync w)))
              (set_state (target o) (useIntentNavigation_sync w)))
    as (-> & _).
  destruct (fold_spies_frame behaviour
              (subscribers (set_state (target o) (useIntentNavigation_sync w)))
              (set_state (target o) (useIntentNavigation_sync w)))
    as (-> & _); [exact Hspies|].
  done.
Qed.

Lemma setup_then_unmount_witness :
  onUnmounted 9%nat (useIntentNavigation 9%nat two_observers)
  = useIntentNavigation_sync two_observers
  ∧ subscribers (onUnmounted 9%nat (useIntent 9%nat two_observers))
    = subscribers two_observers.
Proof.
  destruct (setup_then_unmount spies 0 OStart 9%nat two_observers)
    as (_ & H2 & _ & H4 & _); [| |exact (conj H2 H4)].
  - vm_compute. intros Hin.
    repeat (apply elem_of_cons in Hin as [Hin|Hin]; [discriminate|]).
    by apply elem_of_nil in Hin.
  - reflexivity.
Defined.

(** ** Leaving the page *)

(** X9. Over an intent with the closure of useIntentNavigation among
    observers that leave the intent alone, after any transitions the
    [beforeunload] handler blocks the unload (it prevents the default, sets
    [returnValue] and returns the confirmation message) exactly when the
    intent is active and asks for protection; otherwise it leaves the event
    untouched and returns nothing. *)
Theorem beforeunload_blocks_while_active
    (behaviour : CallbackId -> list Cmd) (fuel : nat)
    (options : IntentNavigationOptions)
    (t : Z) (o : Op) (ops : list (Z * Op)) (w : World) (cb : CallbackId) :
  (∀ x, x ∈ subscribers w → quiet behaviour x) →
  cb ∈ subscribers w →
  SyncNavigation ∈ behaviour cb →
  ∃ w', run_at behaviour fuel ((t, o) :: ops) w = Some w'
        ∧ ∀ event,
            handleBeforeUnload options (nav w') event
            = if Intent.protectNavigation w' && Intent.isActive w' then
                (mkBeforeUnloadEvent true (confirm_text options),
                 Some (confirm_text options))
              else (event, None).
Proof.
  intros Hq Hin Hcb. simpl.
  destruct (dispatch_synced behaviour SyncNavigation fuel o (set_now t w) cb)
    as (w1 & -> & _ & Hs1 & _ & Hf1); try done.
  simpl in Hs1.
  destruct (run_at_synced behaviour SyncNavigation fuel ops w1 cb)
    as (w2 & -> & _ & _ & Hf2); rewrite ?Hs1; try done.
  exists w2. split; [done|]. intros event.
  unfold handleBeforeUnload. simpl in Hf2.
  by rewrite (protectionActive_fresh w2 Hf2).
Qed.

Lemma beforeunload_blocks_while_active_witness :
  ∃ w', run_at composables 0 [(5, OStart); (9, OProgress)] four_observers
        = Some w'
        ∧ ∀ event,
            handleBeforeUnload (mkNavigationOptions None false false)
              (nav w') event
            = if Intent.protectNavigation w' && Intent.isActive w' then
                (mkBeforeUnloadEvent true
                   (confirm_text (mkNavigationOptions None false false)),
                 Some (confirm_text (mkNavigationOptions None false false)))
              else (event, None).
Proof.
  apply (beforeunload_blocks_while_active composables 0
           (mkNavigationOptions None false false)
           5 OStart [(9, OProgress)] four_observers 2%nat).
  - intros x Hin.
    repeat (apply elem_of_cons in Hin as [->|Hin]; [reflexivity|]).
    by apply elem_of_nil in Hin.
  - right. right. left.
  - left.
Defined.

(** X10. The route-leave guard decides on what the intent answers when the
    guard runs, not on what the refs held before, so it is right even over
    an intent without [subscribe]: it calls [next] exactly once, as its last
    action, with [false] exactly when the intent is active, asks for
    protection, and the user declines; it asks for confirmation exactly when
    the intent is active and protected; [onBeforeLeave] runs only before a
    confirmation and [onAfterLeave] only when the navigation goes on. *)
Theorem route_guard_decides_on_current_state
    (options : IntentNavigationOptions) (confirmed : bool) (w : World) :
  (routeLeaveGuard options confirmed w).1 = useIntentNavigation_sync w
  ∧ length (filter (λ e, is_next e = true)
              (routeLeaveGuard options confirmed w).2) = 1%nat
  ∧ last (routeLeaveGuard options confirmed w).2
    = Some (Next (negb (Intent.protectNavigation w && Intent.isActive w)
                  || confirmed))
  ∧ (Confirm (confirm_text options) ∈ (routeLeaveGuard options confirmed w).2
     ↔ Intent.protectNavigation w && Intent.isActive w = true)
  ∧ (CallBeforeLeave ∈ (routeLeaveGuard options confirmed w).2
     ↔ onBeforeLeave options = true
       ∧ Intent.protectNavigation w && Intent.isActive w = true)
  ∧ (CallAfterLeave ∈ (routeLeaveGuard options confirmed w).2
     ↔ onAfterLeave options = true
       ∧ negb (Intent.protectNavigation w && Intent.isActive w)
         || confirmed = true).
Proof.
  unfold routeLeaveGuard, protectionActive. simpl.
  destruct (Intent.protectNavigation w), (Intent.isActive w),
    (onBeforeLeave options), (onAfterLeave options), confirmed; simpl;
    (split; [reflexivity|]); (split; [reflexivity|]);
    (split; [reflexivity|]);
    rewrite ?elem_of_cons, ?elem_of_nil; intuition congruence.
Qed.

(** ** useIntentState: history, previous state, duration *)

Lemma updateState_idem (t : Z) (s : IntentState) (r : StateRefs) :
  useIntentState_updateState t s (useIntentState_updateState t s r)
  = useIntentState_updateState t s r.
Proof.
  destruct (decide (s = currentState r)) as [->|Hne].
  - by rewrite !updateState_same.
  - assert (useIntentState_updateState t s r
            = mkStateRefs s (Some (currentState r)) (transitions r ++ [s]) 0 t)
      as ->.
    { unfold useIntentState_updateState. by rewrite bool_decide_eq_true_2. }
    unfold useIntentState_updateState. simpl.
    by rewrite bool_decide_eq_false_2 by tauto.
Qed.

Section TrackerFanout.

Variable behaviour : CallbackId -> list Cmd.
Variables (t : Z) (s : IntentState) (r0 : StateRefs).

Lemma adapter_step_tracks (w : World) (c : Cmd) :
  now w = t →
  tracked w = r0 ∨ tracked w = useIntentState_updateState t s r0 →
  (tracked (adapter_step s w c) = r0
   ∨ tracked (adapter_step s w c) = useIntentState_updateState t s r0)
  ∧ (tracked w = useIntentState_updateState t s r0 ∨ c = TrackState →
     tracked (adapter_step s w c) = useIntentState_updateState t s r0).
Proof.
  intros Hnow Hw. destruct c; simpl; try (split; [done|]; intros [H|H]; done).
  rewrite Hnow.
  assert (H : tracked
                (set_tracked (useIntentState_updateState t s (tracked w)) w)
              = useIntentState_updateState t s r0).
  { simpl. destruct Hw as [->| ->]; [done|apply updateState_idem]. }
  split; [by right|done].
Qed.

Lemma adapter_steps_tracks (body : list Cmd) (w : World) :
  now w = t →
  tracked w = r0 ∨ tracked w = useIntentState_updateState t s r0 →
  (tracked (fold_left (adapter_step s) body w) = r0
   ∨ tracked (fold_left (adapter_step s) body w)
     = useIntentState_updateState t s r0)
  ∧ (tracked w = useIntentState_updateState t s r0 ∨ TrackState ∈ body →
     tracked (fold_left (adapter_step s) body w)
     = useIntentState_updateState t s r0).
Proof.
  revert w. induction body as [|c body IH]; intros w Hnow Hw; simpl.
  - split; [done|]. intros [H|H]; [done|by apply elem_of_nil in H].
  - destruct (adapter_step_tracks w c Hnow Hw) as [H1 H2].
    destruct (IH (adapter_step s w c)) as [H3 H4]; [|done|].
    { by destruct (adapter_step_frame s w c) as (_ & _ & _ & _ & ->). }
    split; [done|]. intros [H|H]; apply H4.
    + left. apply H2. by left.
    + apply elem_of_cons in H as [<-|H]; [|by right].
      left. apply H2. by right.
Qed.

Lemma quiet_call_tracks (w : World) (cb : CallbackId) :
  now w = t → state w = s →
  tracked w = r0 ∨ tracked w = useIntentState_updateState t s r0 →
  (tracked (quiet_call behaviour w cb) = r0
   ∨ tracked (quiet_call behaviour w cb)
     = useIntentState_updateState t s r0)
  ∧ (tracked w = useIntentState_updateState t s r0
     ∨ TrackState ∈ behaviour cb →
     tracked (quiet_call behaviour w cb)
     = useIntentState_updateState t s r0).
Proof.
  intros Hnow Hst Hw. unfold quiet_call. rewrite Hst.
  exact (adapter_steps_tracks (behaviour cb)
           (Transition.record_call cb s w) Hnow Hw).
Qed.

Lemma fold_quiet_tracks (l : list CallbackId) (w : World) :
  now w = t → state w = s →
  tracked w = r0 ∨ tracked w = useIntentState_updateState t s r0 →
  (tracked w = useIntentState_updateState t s r0
   ∨ (∃ cb, cb ∈ l ∧ TrackState ∈ behaviour cb)) →
  tracked (fold_left (quiet_call behaviour) l w)
  = useIntentState_updateState t s r0.
Proof.
  revert w. induction l as [|x l IH]; intros w Hnow Hst Hw H; simpl.
  - destruct H as [H|(cb & Hin & _)]; [done|by apply elem_of_nil in Hin].
  - destruct (quiet_call_tracks w x Hnow Hst Hw) as [H1 H2].
    destruct (quiet_call_frame behaviour w x) as (Hst' & _ & _ & _ & Hnow').
    apply IH; [congruence|congruence|done|].
    destruct H as [H|(cb & Hin & Hcb)].
    + left. apply H2. by left.
    + apply elem_of_cons in Hin as [->|Hin].
      * left. apply H2. by right.
      * right. by exists cb.
Qed.

End TrackerFanout.

(** One transition, seen from useIntentState. *)
Lemma dispatch_updates_tracker behaviour fuel (o : Op) (w : World)
    (cb : CallbackId) :
  (∀ x, x ∈ subscribers w → quiet behaviour x) →
  cb ∈ subscribers w →
  TrackState ∈ behaviour cb →
  ∃ w', Transition.dispatch behaviour fuel o w = Some w'
        ∧ state w' = target o
        ∧ subscribers w' = subscribers w
        ∧ tracked w'
          = useIntentState_updateState (now w) (target o) (tracked w).
Proof.
  intros Hq Hin Hcb. rewrite dispatch_unfold, forEach_quiet by exact Hq.
  eexists. split; [reflexivity|].
  destruct (fold_quiet_frame behaviour
              (subscribers (set_state (target o) w))
              (set_state (target o) w)) as (-> & -> & _).
  repeat split.
  apply (fold_quiet_tracks behaviour (now w) (target o) (tracked w));
    try done; [by left|]. right. by exists cb.
Qed.

(** What the notifications of a sequence of transitions do to the refs. *)
Lemma run_at_updates_tracker behaviour fuel (ops : list (Z * Op)) (w : World)
    (cb : CallbackId) :
  (∀ x, x ∈ subscribers w → quiet behaviour x) →
  cb ∈ subscribers w →
  TrackState ∈ behaviour cb →
  ∃ w', run_at behaviour fuel ops w = Some w'
        ∧ state w' = last_state (state w) ops
        ∧ tracked w'
          = fold_left (λ r p, useIntentState_updateState p.1 (target p.2) r)
              ops (tracked w).
Proof.
  revert w. induction ops as [|[t o] ops IH]; intros w Hq Hin Hcb; simpl.
  - by exists w.
  - destruct (dispatch_updates_tracker behaviour fuel o (set_now t w) cb)
      as (w1 & -> & Hst1 & Hs1 & Ht1); try done.
    simpl in Hs1, Ht1.
    destruct (IH w1) as (w2 & -> & Hst2 & Ht2); rewrite ?Hs1; try done.
    exists w2. split; [done|]. rewrite Hst2, Ht2, Hst1, Ht1. done.
Qed.

Lemma collapse_snoc (l : list IntentState) (x : IntentState) :
  collapse (l ++ [x])
  = if bool_decide (last l = Some x) then collapse l else collapse l ++ [x].
Proof.
  induction l as [|a l IH]; [done|].
  destruct l as [|b l].
  - simpl. destruct (decide (a = x)) as [->|Hne].
    + by rewrite !bool_decide_eq_true_2.
    + rewrite !bool_decide_eq_false_2; [done|congruence|done].
  - change ((a :: b :: l) ++ [x]) with (a :: (b :: l) ++ [x]).
    rewrite last_cons_cons.
    change (collapse (a :: (b :: l) ++ [x]))
      with (if bool_decide (a = b) then collapse ((b :: l) ++ [x])
            else a :: collapse ((b :: l) ++ [x])).
    change (collapse (a :: b :: l))
      with (if bool_decide (a = b) then collapse (b :: l)
            else a :: collapse (b :: l)).
    rewrite IH. by repeat case_bool_decide.
Qed.

Lemma updates_history (ops : list (Z * Op)) (r : StateRefs)
    (l : list IntentState) :
  transitions r = collapse l →
  last l = Some (currentState r) →
  transitions
    (fold_left (λ r p, useIntentState_updateState p.1 (target p.2) r) ops r)
  = collapse (l ++ map (λ p, target p.2) ops)
  ∧ currentState
      (fold_left (λ r p, useIntentState_updateState p.1 (target p.2) r) ops r)
    = last_state (currentState r) ops.
Proof.
  revert r l. induction ops as [|[t o] ops IH]; intros r l Ht Hl; simpl.
  - by rewrite app_nil_r.
  - destruct (IH (useIntentState_updateState t (target o) r)
                (l ++ [target o])) as [H1 H2].
    + rewrite collapse_snoc. unfold useIntentState_updateState.
      case_bool_decide as Hne; simpl.
      * rewrite bool_decide_eq_false_2 by congruence. by rewrite Ht.
      * rewrite bool_decide_eq_true_2; [done|].
        rewrite Hl. f_equal. symmetry.
        destruct (decide (target o = currentState r)); [done|by destruct Hne].
    + rewrite last_snoc. unfold useIntentState_updateState.
      case_bool_decide as Hne; simpl; [done|].
      f_equal. destruct (decide (target o = currentState r)); [done|by destruct Hne].
    + rewrite <- app_assoc in H1. simpl in H1. split; [exact H1|].
      rewrite H2. unfold last_state. f_equal.
      unfold useIntentState_updateState. case_bool_decide as Hne; simpl; [done|].
      destruct (decide (target o = currentState r)); [done|by destruct Hne].
Qed.

(** X11. With useIntentState set up on an intent that has [subscribe], and
    the other observers leaving the intent alone, the history after any
    sequence of transitions is the sequence of states the intent went
    through, starting with the one at setup, with every run of equal
    consecutive states kept once; the tracked state is the state of the
    intent, and [isIn] answers for that state. *)
Theorem history_is_collapsed_states
    (behaviour : CallbackId -> list Cmd) (fuel : nat)
    (ops : list (Z * Op)) (w : World) (cb : CallbackId) :
  cfg_subscribe (cfg w) = true →
  behaviour cb = useIntentState_callback →
  (∀ x, x ∈ subscribers w → quiet behaviour x) →
  ∃ w', run_at behaviour fuel ops (useIntentState cb w) = Some w'
        ∧ transitions (tracked w')
          = collapse (state w :: map (λ p, target p.2) ops)
        ∧ currentState (tracked w') = state w'
        ∧ ∀ states, isIn states (tracked w') = bool_decide (state w' ∈ states).
Proof.
  intros Hsub Hcb Hq.
  assert (Hw : useIntentState cb w
               = Intent.subscribe cb
                   (set_tracked
                      (mkStateRefs (state w) None [state w] 0 (now w)) w)).
  { unfold useIntentState, subscribe_if_available. simpl. by rewrite Hsub. }
  rewrite Hw.
  destruct (run_at_updates_tracker behaviour fuel ops
              (Intent.subscribe cb
                 (set_tracked
                    (mkStateRefs (state w) None [state w] 0 (now w)) w)) cb)
    as (w' & Hrun & Hst & Ht).
  - simpl. intros x [Hin|Hin]%elem_of_app; [by apply Hq|].
    apply list_elem_of_singleton in Hin as ->. unfold quiet. by rewrite Hcb.
  - simpl. apply elem_of_app. right. left.
  - rewrite Hcb. left.
  - exists w'. split; [done|]. simpl in Hst, Ht.
    destruct (updates_history ops
                (mkStateRefs (state w) None [state w] 0 (now w)) [state w])
      as [H1 H2]; [done|done|].
    unfold isIn. rewrite Ht, H1, H2, Hst. done.
Qed.

Lemma history_is_collapsed_states_witness :
  ∃ w', run_at composables 0
          [(1, OStart); (2, OProgress); (3, OProgress); (4, OWait);
           (5, OProgress); (6, OComplete)]
          (useIntentState 3%nat (createIntent demo_config 0)) = Some w'
        ∧ transitions (tracked w')
          = [Idle; Started; InProgress; Waiting; InProgress; Completed]
        ∧ currentState (tracked w') = state w'
        ∧ ∀ states, isIn states (tracked w') = bool_decide (state w' ∈ states).
Proof.
  apply (history_is_collapsed_states composables 0
           [(1, OStart); (2, OProgress); (3, OProgress); (4, OWait);
            (5, OProgress); (6, OComplete)]
           (createIntent demo_config 0) 3%nat);
    [reflexivity | reflexivity |].
  simpl. by intros x Hin%elem_of_nil.
Defined.

(** X12. In useIntentState, [previous] is null exactly as long as the
    history holds the initial state alone; afterwards it is the entry of the
    history just before the last one, and differs from the tracked state. *)
Theorem previous_is_penultimate (r : StateRefs) :
  tracks r →
  match previous r with
  | None => transitions r = [currentState r]
  | Some p =>
      p ≠ currentState r
      ∧ ∃ older, transitions r = older ++ [p; currentState r]
  end.
Proof.
  induction 1 as [s t | r t s Hr IH | r t active Hr IH].
  - done.
  - unfold useIntentState_updateState. case_bool_decide as Hne; [|exact IH].
    simpl. split; [congruence|].
    destruct (tracks_history r Hr) as [Hl _].
    apply last_Some in Hl as [older Hl]. exists older.
    by rewrite Hl, <- app_assoc.
  - unfold useIntentState_tick. by destruct active.
Qed.

Lemma previous_is_penultimate_witness :
  previous tracked_after_progress = Some Started
  ∧ Started ≠ currentState tracked_after_progress
  ∧ ∃ older,
      transitions tracked_after_progress
      = older ++ [Started; currentState tracked_after_progress].
Proof.
  split; [reflexivity|].
  apply (previous_is_penultimate tracked_after_progress).
  unfold tracked_after_progress. do 3 apply tracks_notified.
  apply tracks_setup.
Defined.

(** X13. As long as the clock never runs backwards, [duration] is never
    negative and never more than the time since the tracked state was
    entered, and the entry time is never in the future. *)
Theorem duration_bounded (t : Z) (r : StateRefs) :
  tracks_until t r →
  (stateStartTime r ≤ t)%Z ∧ (0 ≤ duration r ≤ t - stateStartTime r)%Z.
Proof.
  induction 1 as [s t | r t t' s Hr IH Hle | r t t' active Hr IH Hle].
  - simpl. lia.
  - unfold useIntentState_updateState. case_bool_decide; simpl; lia.
  - unfold useIntentState_tick. destruct active; simpl; lia.
Qed.

Lemma duration_bounded_witness :
  (stateStartTime
     (useIntentState_tick 250 true
        (useIntentState_updateState 100 Started
           (mkStateRefs Idle None [Idle] 0 7))) ≤ 250)%Z
  ∧ (0 ≤ duration
           (useIntentState_tick 250 true
              (useIntentState_updateState 100 Started
                 (mkStateRefs Idle None [Idle] 0 7)))
       ≤ 250 - stateStartTime
                 (useIntentState_tick 250 true
                    (useIntentState_updateState 100 Started
                       (mkStateRefs Idle None [Idle] 0 7))))%Z.
Proof.
  apply (duration_bounded 250).
  apply (until_tick _ 100); [|lia].
  apply (until_notified _ 7); [|lia].
  apply until_setup.
Defined.

(** ** The directive on an intent *)

(** Two elements with the same six fields are the same element. *)
Lemma element_eq (e1 e2 : Element) :
  el_disabled e1 = el_disabled e2 →
  el_attributes e1 = el_attributes e2 →
  el_classList e1 = el_classList e2 →
  el_display e1 = el_display e2 →
  _intentUnsubscribe e1 = _intentUnsubscribe e2 →
  _intentOriginalDisplay e1 = _intentOriginalDisplay e2 →
  e1 = e2.
Proof.
  destruct e1, e2. cbn [el_disabled el_attributes el_classList el_display
                        _intentUnsubscribe _intentOriginalDisplay].
  by intros -> -> -> -> -> ->.
Qed.

(** What each DOM operation does to each field. *)
Lemma classList_toggle_fields (c : string) (on : bool) (el : Element) :
  el_disabled (classList_toggle c on el) = el_disabled el
  ∧ el_attributes (classList_toggle c on el) = el_attributes el
  ∧ el_classList (classList_toggle c on el)
    = toggle_class c on (el_classList el)
  ∧ el_display (classList_toggle c on el) = el_display el
  ∧ _intentUnsubscribe (classList_toggle c on el) = _intentUnsubscribe el
  ∧ _intentOriginalDisplay (classList_toggle c on el)
    = _intentOriginalDisplay el.
Proof. repeat split; reflexivity. Qed.

Lemma setAttribute_fields (k v : string) (el : Element) :
  el_disabled (setAttribute k v el) = el_disabled el
  ∧ el_attributes (setAttribute k v el) = <[k := v]> (el_attributes el)
  ∧ el_classList (setAttribute k v el) = el_classList el
  ∧ el_display (setAttribute k v el) = el_display el
  ∧ _intentUnsubscribe (setAttribute k v el) = _intentUnsubscribe el
  ∧ _intentOriginalDisplay (setAttribute k v el)
    = _intentOriginalDisplay el.
Proof. repeat split; reflexivity. Qed.

Lemma removeAttribute_fields (k : string) (el : Element) :
  el_disabled (removeAttribute k el) = el_disabled el
  ∧ el_attributes (removeAttribute k el) = delete k (el_attributes el)
  ∧ el_classList (removeAttribute k el) = el_classList el
  ∧ el_display (removeAttribute k el) = el_display el
  ∧ _intentUnsubscribe (removeAttribute k el) = _intentUnsubscribe el
  ∧ _intentOriginalDisplay (removeAttribute k el)
    = _intentOriginalDisplay el.
Proof. repeat split; reflexivity. Qed.

Lemma set_display_fields (d : string) (el : Element) :
  el_disabled (set_display d el) = el_disabled el
  ∧ el_attributes (set_display d el) = el_attributes el
  ∧ el_classList (set_display d el) = el_classList el
  ∧ el_display (set_display d el) = d
  ∧ _intentUnsubscribe (set_display d el) = _intentUnsubscribe el
  ∧ _intentOriginalDisplay (set_display d el) = _intentOriginalDisplay el.
Proof. repeat split; reflexivity. Qed.

Lemma set_disabled_fields (b : bool) (el : Element) :
  el_disabled (set_disabled_if_present b el)
  = match el_disabled el with
    | Some _ => Some b
    | None => None
    end
  ∧ el_attributes (set_disabled_if_present b el) = el_attributes el
  ∧ el_classList (set_disabled_if_present b el) = el_classList el
  ∧ el_display (set_disabled_if_present b el) = el_display el
  ∧ _intentUnsubscribe (set_disabled_if_present b el) = _intentUnsubscribe el
  ∧ _intentOriginalDisplay (set_disabled_if_present b el)
    = _intentOriginalDisplay el.
Proof.
  unfold set_disabled_if_present.
  destruct (el_disabled el) eqn:Hd; repeat split; try reflexivity.
  exact Hd.
Qed.

Lemma remember_display_fields (el : Element) :
  el_disabled (remember_display el) = el_disabled el
  ∧ el_attributes (remember_display el) = el_attributes el
  ∧ el_classList (remember_display el) = el_classList el
  ∧ el_display (remember_display el) = el_display el
  ∧ _intentUnsubscribe (remember_display el) = _intentUnsubscribe el
  ∧ _intentOriginalDisplay (remember_display el)
    = match _intentOriginalDisplay el with
      | Some s => if bool_decide (s = "") then Some (el_display el) else Some s
      | None => Some (el_display el)
      end.
Proof.
  unfold remember_display.
  destruct (_intentOriginalDisplay el) as [s|] eqn:Ho;
    [case_bool_decide|]; repeat split; try reflexivity.
  exact Ho.
Qed.

(** Read one field of an element built by the DOM operations. *)
Ltac element_fields :=
  repeat first
    [ rewrite (proj1 (classList_toggle_fields _ _ _))
    | rewrite (proj1 (proj2 (classList_toggle_fields _ _ _)))
    | rewrite (proj1 (proj2 (proj2 (classList_toggle_fields _ _ _))))
    | rewrite (proj1 (proj2 (proj2 (proj2 (classList_toggle_fields _ _ _)))))
    | rewrite (proj1 (proj2 (proj2 (proj2 (proj2
                 (classList_toggle_fields _ _ _))))))
    | rewrite (proj2 (proj2 (proj2 (proj2 (proj2
                 (classList_toggle_fields _ _ _))))))
    | rewrite (proj1 (setAttribute_fields _ _ _))
    | rewrite (proj1 (proj2 (setAttribute_fields _ _ _)))
    | rewrite (proj1 (proj2 (proj2 (setAttribute_fields _ _ _))))
    | rewrite (proj1 (proj2 (proj2 (proj2 (setAttribute_fields _ _ _)))))
    | rewrite (proj1 (proj2 (proj2 (proj2 (proj2
                 (setAttribute_fields _ _ _))))))
    | rewrite (proj2 (proj2 (proj2 (proj2 (proj2
                 (setAttribute_fields _ _ _))))))
    | rewrite (proj1 (removeAttribute_fields _ _))
    | rewrite (proj1 (proj2 (removeAttribute_fields _ _)))
    | rewrite (proj1 (proj2 (proj2 (removeAttribute_fields _ _))))
    | rewrite (proj1 (proj2 (proj2 (proj2 (removeAttribute_fields _ _)))))
    | rewrite (proj1 (proj2 (proj2 (proj2 (proj2
                 (removeAttribute_fields _ _))))))
    | rewrite (proj2 (proj2 (proj2 (proj2 (proj2
                 (removeAttribute_fields _ _))))))
    | rewrite (proj1 (set_display_fields _ _))
    | rewrite (proj1 (proj2 (set_display_fields _ _)))
    | rewrite (proj1 (proj2 (proj2 (set_display_fields _ _))))
    | rewrite (proj1 (proj2 (proj2 (proj2 (set_display_fields _ _)))))
    | rewrite (proj1 (proj2 (proj2 (proj2 (proj2
                 (set_display_fields _ _))))))
    | rewrite (proj2 (proj2 (proj2 (proj2 (proj2
                 (set_display_fields _ _))))))
    | rewrite (proj1 (set_disabled_fields _ _))
    | rewrite (proj1 (proj2 (set_disabled_fields _ _)))
    | rewrite (proj1 (proj2 (proj2 (set_disabled_fields _ _))))
    | rewrite (proj1 (proj2 (proj2 (proj2 (set_disabled_fields _ _)))))
    | rewrite (proj1 (proj2 (proj2 (proj2 (proj2
                 (set_disabled_fields _ _))))))
    | rewrite (proj2 (proj2 (proj2 (proj2 (proj2
                 (set_disabled_fields _ _))))))
    | rewrite (proj1 (remember_display_fields _))
    | rewrite (proj1 (proj2 (remember_display_fields _)))
    | rewrite (proj1 (proj2 (proj2 (remember_display_fields _))))
    | rewrite (proj1 (proj2 (proj2 (proj2 (remember_display_fields _)))))
    | rewrite (proj1 (proj2 (proj2 (proj2 (proj2
                 (remember_display_fields _))))))
    | rewrite (proj2 (proj2 (proj2 (proj2 (proj2
                 (remember_display_fields _)))))) ].

Lemma toggle_class_elem (c : string) (on : bool) (l : list string) :
  c ∈ toggle_class c on l ↔ on = true.
Proof.
  unfold toggle_class. destruct on.
  - split; [done|]. intros _. case_bool_decide; [done|].
    apply elem_of_app. right. left.
  - split; [|done]. intros Hin%list_elem_of_filter. by destruct Hin.
Qed.

Lemma toggle_class_other (c d : string) (on : bool) (l : list string) :
  d ≠ c → d ∈ toggle_class c on l ↔ d ∈ l.
Proof.
  intros Hne. unfold toggle_class. destruct on.
  - case_bool_decide; [done|]. rewrite elem_of_app, list_elem_of_singleton.
    intuition congruence.
  - rewrite list_elem_of_filter. intuition congruence.
Qed.

Lemma toggle_class_settled (c : string) (on : bool) (l : list string) :
  (c ∈ l ↔ on = true) → toggle_class c on l = l.
Proof.
  intros H. unfold toggle_class. destruct on.
  - rewrite bool_decide_eq_true_2; [done|]. by apply H.
  - induction l as [|x l IH]; [done|].
    rewrite filter_cons. destruct (decide (x ≠ c)) as [Hx|Hx].
    + f_equal. apply IH. split; [|done]. intros Hin.
      apply H. by right.
    + exfalso. assert (x = c) as -> by (by destruct (decide (x = c))).
      assert (false = true); [|done]. apply H. left.
Qed.

Lemma toggle_class_idem (c : string) (on : bool) (l : list string) :
  toggle_class c on (toggle_class c on l) = toggle_class c on l.
Proof. apply toggle_class_settled, toggle_class_elem. Qed.

Lemma toggle_class_foreign (c : string) (on : bool) (l : list string)
    (owned : list string) :
  c ∈ owned →
  filter (λ x, x ∉ owned) (toggle_class c on l) = filter (λ x, x ∉ owned) l.
Proof.
  intros Hc. unfold toggle_class. destruct on.
  - case_bool_decide; [done|]. rewrite filter_app, filter_cons.
    destruct (decide (c ∉ owned)); [done|].
    by rewrite filter_nil, app_nil_r.
  - induction l as [|x l IH]; [done|].
    rewrite (filter_cons (λ x, x ≠ c)).
    destruct (decide (x ≠ c)) as [Hx|Hx].
    + rewrite !filter_cons. destruct (decide (x ∉ owned)); by rewrite IH.
    + assert (x = c) as -> by (by destruct (decide (x = c))).
      rewrite filter_cons. by destruct (decide (c ∉ owned)).
Qed.

(** The names the directive owns are the six literals of the source. *)
Lemma disabled_class_owned : "intent-disabled" ∈ directive_classes.
Proof. left. Qed.

Lemma loading_class_owned : "intent-loading" ∈ directive_classes.
Proof. right. left. Qed.

Lemma active_class_owned : "intent-active" ∈ directive_classes.
Proof. right. right. left. Qed.

Lemma disabled_attribute_owned : "aria-disabled" ∈ directive_attributes.
Proof. left. Qed.

Lemma busy_attribute_owned : "aria-busy" ∈ directive_attributes.
Proof. right. left. Qed.

Lemma hidden_attribute_owned : "aria-hidden" ∈ directive_attributes.
Proof. right. right. left. Qed.

Lemma classes_differ : "intent-disabled" ≠ "intent-active".
Proof. discriminate. Qed.

(** The four branches of the [switch (modifier)]. *)
Lemma updateElement_disabled (el : Element) (w : World) :
  updateElement el (mkBinding BIntent (Some "disabled")) w
  = classList_toggle "intent-disabled"
      (negb (Intent.allowed w) || Intent.isActive w)
      (setAttribute "aria-disabled"
         (String_of_bool (negb (Intent.allowed w) || Intent.isActive w))
         (set_disabled_if_present
            (negb (Intent.allowed w) || Intent.isActive w) el)).
Proof. reflexivity. Qed.

Lemma updateElement_loading (el : Element) (w : World) :
  updateElement el (mkBinding BIntent (Some "loading")) w
  = setAttribute "aria-busy" (String_of_bool (Intent.isActive w))
      (classList_toggle "intent-loading" (Intent.isActive w) el).
Proof. reflexivity. Qed.

Lemma updateElement_hidden (el : Element) (w : World) :
  updateElement el (mkBinding BIntent (Some "hidden")) w
  = if negb (Intent.allowed w) then
      setAttribute "aria-hidden" "true"
        (set_display "none" (remember_display el))
    else
      removeAttribute "aria-hidden"
        (set_display (default "" (_intentOriginalDisplay el)) el).
Proof. reflexivity. Qed.

Lemma updateElement_default (el : Element) (modifier : option string)
    (w : World) :
  modifier ≠ Some "disabled" →
  modifier ≠ Some "loading" →
  modifier ≠ Some "hidden" →
  updateElement el (mkBinding BIntent modifier) w
  = classList_toggle "intent-active" (Intent.isActive w)
      (classList_toggle "intent-disabled" (negb (Intent.allowed w))
         (setAttribute "aria-disabled"
            (String_of_bool (negb (Intent.allowed w)))
            (set_disabled_if_present (negb (Intent.allowed w)) el))).
Proof.
  intros H1 H2 H3. unfold updateElement.
  cbn [value arg].
  by rewrite !bool_decide_eq_false_2.
Qed.

(** The modifier selects one of the four branches. *)
Lemma modifier_cases (modifier : option string) :
  modifier = Some "disabled" ∨ modifier = Some "loading"
  ∨ modifier = Some "hidden"
  ∨ (modifier ≠ Some "disabled" ∧ modifier ≠ Some "loading"
     ∧ modifier ≠ Some "hidden").
Proof.
  destruct (decide (modifier = Some "disabled")); [by left|].
  destruct (decide (modifier = Some "loading")); [by right; left|].
  destruct (decide (modifier = Some "hidden")); [by right; right; left|].
  by right; right; right.
Qed.

Lemma set_disabled_twice (b : bool) (o : option bool) :
  match match o with
        | Some _ => Some b
        | None => None
        end with
  | Some _ => Some b
  | None => None
  end
  = match o with
    | Some _ => Some b
    | None => None
    end.
Proof. by destruct o. Qed.

Lemma toggles_twice (a d : bool) (l : list string) :
  toggle_class "intent-active" a
    (toggle_class "intent-disabled" d
       (toggle_class "intent-active" a (toggle_class "intent-disabled" d l)))
  = toggle_class "intent-active" a (toggle_class "intent-disabled" d l).
Proof.
  rewrite (toggle_class_settled "intent-disabled"); [apply toggle_class_idem|].
  rewrite toggle_class_other by exact classes_differ.
  apply toggle_class_elem.
Qed.

(** X14. Except with the [hidden] modifier, running [updateElement] again
    on the same intent state changes nothing: the hook can be called on
    every notification and every re-render without piling up classes or
    attributes. *)
Theorem updateElement_idempotent
    (el : Element) (v : BindingValue) (modifier : option string) (w : World) :
  modifier ≠ Some "hidden" →
  updateElement (updateElement el (mkBinding v modifier) w)
    (mkBinding v modifier) w
  = updateElement el (mkBinding v modifier) w.
Proof.
  intros Hh. destruct v; try reflexivity.
  destruct (modifier_cases modifier) as [-> | [-> | [-> | (H1 & H2 & H3)]]];
    [| | done |].
  - rewrite !updateElement_disabled.
    apply element_eq; element_fields; try reflexivity.
    + apply set_disabled_twice.
    + apply insert_insert_eq.
    + apply toggle_class_idem.
  - rewrite !updateElement_loading.
    apply element_eq; element_fields; try reflexivity.
    + apply insert_insert_eq.
    + apply toggle_class_idem.
  - rewrite !updateElement_default by done.
    apply element_eq; element_fields; try reflexivity.
    + apply set_disabled_twice.
    + apply insert_insert_eq.
    + apply toggles_twice.
Qed.

Lemma updateElement_idempotent_witness :
  updateElement
    (updateElement demo_button (mkBinding BIntent (Some "disabled"))
       (set_state Started (createIntent demo_config 0)))
    (mkBinding BIntent (Some "disabled"))
    (set_state Started (createIntent demo_config 0))
  = updateElement demo_button (mkBinding BIntent (Some "disabled"))
      (set_state Started (createIntent demo_config 0)).
Proof.
  apply (updateElement_idempotent demo_button BIntent (Some "disabled")
           (set_state Started (createIntent demo_config 0))).
  discriminate.
Defined.

Lemma updateElement_keeps_foreign_parts_aux
    (el : Element) (modifier : option string) (w : World) :
  _intentUnsubscribe (updateElement el (mkBinding BIntent modifier) w)
  = _intentUnsubscribe el.
Proof.
  destruct (modifier_cases modifier) as [-> | [-> | [-> | (H1 & H2 & H3)]]].
  - rewrite updateElement_disabled. by element_fields.
  - rewrite updateElement_loading. by element_fields.
  - rewrite updateElement_hidden.
    destruct (negb (Intent.allowed w)); by element_fields.
  - rewrite updateElement_default by done. by element_fields.
Qed.

Lemma lookup_insert_foreign (k k' x : string) (m : gmap string string) :
  k ∉ directive_attributes → k' ∈ directive_attributes →
  <[k' := x]> m !! k = m !! k.
Proof. intros Hk Hk'. apply lookup_insert_ne. by intros ->. Qed.

Lemma set_disabled_is_Some (b : bool) (o : option bool) :
  is_Some match o with
          | Some _ => Some b
          | None => None
          end
  ↔ is_Some o.
Proof. destruct o; [by split|]. split; by intros [? ?]. Qed.

(** X15. Whatever the binding and the modifier, [updateElement] leaves the
    rest of the element alone: classes other than its three keep their
    place, content attributes other than its three [aria-] ones and other
    than [disabled], [class] and [style] (which reflect the properties it
    assigns) keep their values, the stored handle is untouched, an element
    without a [disabled] property does not get one, and the inline display
    and the remembered display change under the [hidden] modifier only. *)
Theorem updateElement_keeps_foreign_parts
    (el : Element) (v : BindingValue) (modifier : option string) (w : World) :
  filter (λ c, c ∉ directive_classes)
    (el_classList (updateElement el (mkBinding v modifier) w))
  = filter (λ c, c ∉ directive_classes) (el_classList el)
  ∧ (∀ k, k ∉ directive_attributes → k ∉ reflected_attributes →
       el_attributes (updateElement el (mkBinding v modifier) w) !! k
       = el_attributes el !! k)
  ∧ _intentUnsubscribe (updateElement el (mkBinding v modifier) w)
    = _intentUnsubscribe el
  ∧ (is_Some (el_disabled (updateElement el (mkBinding v modifier) w))
     ↔ is_Some (el_disabled el))
  ∧ (modifier ≠ Some "hidden" →
     el_display (updateElement el (mkBinding v modifier) w) = el_display el
     ∧ _intentOriginalDisplay (updateElement el (mkBinding v modifier) w)
       = _intentOriginalDisplay el).
Proof.
  destruct v;
    [change (updateElement el (mkBinding BNull modifier) w) with el;
     by repeat split
    |change (updateElement el (mkBinding BUndefined modifier) w) with el;
     by repeat split
    |].
  destruct (modifier_cases modifier) as [-> | [-> | [-> | (H1 & H2 & H3)]]].
  - rewrite updateElement_disabled. element_fields.
    split; [apply toggle_class_foreign, disabled_class_owned|].
    split; [intros k Hk _;
            apply lookup_insert_foreign, disabled_attribute_owned; exact Hk|].
    split; [reflexivity|]. split; [apply set_disabled_is_Some|].
    intros _. split; reflexivity.
  - rewrite updateElement_loading. element_fields.
    split; [apply toggle_class_foreign, loading_class_owned|].
    split; [intros k Hk _;
            apply lookup_insert_foreign, busy_attribute_owned; exact Hk|].
    split; [reflexivity|]. split; [reflexivity|].
    intros _. split; reflexivity.
  - rewrite updateElement_hidden.
    destruct (negb (Intent.allowed w)); element_fields.
    + split; [reflexivity|].
      split; [intros k Hk _;
              apply lookup_insert_foreign, hidden_attribute_owned; exact Hk|].
      split; [reflexivity|]. split; [reflexivity|]. by intros Hh.
    + split; [reflexivity|].
      split; [|split; [reflexivity|split; [reflexivity|by intros Hh]]].
      intros k Hk _. apply lookup_delete_ne. intros <-.
      exact (Hk hidden_attribute_owned).
  - rewrite updateElement_default by done. element_fields.
    split; [by rewrite (toggle_class_foreign _ _ _ _ active_class_owned),
                      (toggle_class_foreign _ _ _ _ disabled_class_owned)|].
    split; [intros k Hk _;
            apply lookup_insert_foreign, disabled_attribute_owned; exact Hk|].
    split; [reflexivity|]. split; [apply set_disabled_is_Some|].
    intros _. split; reflexivity.
Qed.

Lemma set_disabled_present (b : bool) (o : option bool) :
  is_Some o →
  match o with
  | Some _ => Some b
  | None => None
  end = Some b.
Proof. by intros [? ->]. Qed.

(** X16. After [updateElement] on an intent the element shows the intent's
    answers, whatever classes and attributes it had before. With [disabled]:
    [aria-disabled], the class [intent-disabled] and the [disabled] property
    (when the element has one) all say "not allowed or active". With
    [loading]: [aria-busy] and the class [intent-loading] say "active". With
    [hidden] and no permission: display [none] and [aria-hidden]; with
    permission: no [aria-hidden]. Otherwise: the disabled trio says "not
    allowed" and the class [intent-active] says "active". *)
Theorem element_reflects_intent
    (el : Element) (modifier : option string) (w : World) :
  (modifier = Some "disabled" →
   el_attributes (updateElement el (mkBinding BIntent modifier) w)
     !! "aria-disabled"
   = Some (String_of_bool (negb (Intent.allowed w) || Intent.isActive w))
   ∧ ("intent-disabled"
        ∈ el_classList (updateElement el (mkBinding BIntent modifier) w)
      ↔ negb (Intent.allowed w) || Intent.isActive w = true)
   ∧ (is_Some (el_disabled el) →
      el_disabled (updateElement el (mkBinding BIntent modifier) w)
      = Some (negb (Intent.allowed w) || Intent.isActive w)))
  ∧ (modifier = Some "loading" →
     el_attributes (updateElement el (mkBinding BIntent modifier) w)
       !! "aria-busy"
     = Some (String_of_bool (Intent.isActive w))
     ∧ ("intent-loading"
          ∈ el_classList (updateElement el (mkBinding BIntent modifier) w)
        ↔ Intent.isActive w = true))
  ∧ (modifier = Some "hidden" →
     el_attributes (updateElement el (mkBinding BIntent modifier) w)
       !! "aria-hidden"
     = (if Intent.allowed w then None else Some "true")
     ∧ (Intent.allowed w = false →
        el_display (updateElement el (mkBinding BIntent modifier) w)
        = "none"))
  ∧ (modifier ≠ Some "disabled" → modifier ≠ Some "loading" →
     modifier ≠ Some "hidden" →
     el_attributes (updateElement el (mkBinding BIntent modifier) w)
       !! "aria-disabled"
     = Some (String_of_bool (negb (Intent.allowed w)))
     ∧ ("intent-disabled"
          ∈ el_classList (updateElement el (mkBinding BIntent modifier) w)
        ↔ Intent.allowed w = false)
     ∧ ("intent-active"
          ∈ el_classList (updateElement el (mkBinding BIntent modifier) w)
        ↔ Intent.isActive w = true)
     ∧ (is_Some (el_disabled el) →
        el_disabled (updateElement el (mkBinding BIntent modifier) w)
        = Some (negb (Intent.allowed w)))).
Proof.
  split; [|split; [|split]].
  - intros ->. rewrite updateElement_disabled. element_fields.
    split; [apply lookup_insert_eq|].
    split; [apply toggle_class_elem|apply set_disabled_present].
  - intros ->. rewrite updateElement_loading. element_fields.
    split; [apply lookup_insert_eq|apply toggle_class_elem].
  - intros ->. rewrite updateElement_hidden.
    destruct (Intent.allowed w); cbn [negb]; element_fields.
    + split; [apply lookup_delete_eq|by intros H].
    + split; [apply lookup_insert_eq|reflexivity].
  - intros H1 H2 H3. rewrite updateElement_default by done. element_fields.
    split; [apply lookup_insert_eq|].
    split; [|split; [apply toggle_class_elem|apply set_disabled_present]].
    rewrite toggle_class_other by exact classes_differ.
    rewrite toggle_class_elem. by destruct (Intent.allowed w).
Qed.

(** One update under [hidden] without permission. *)
Lemma hidden_update (el : Element) (w : World) :
  Intent.allowed w = false →
  _intentOriginalDisplay
    (updateElement el (mkBinding BIntent (Some "hidden")) w)
  = match _intentOriginalDisplay el with
    | Some s => if bool_decide (s = "") then Some (el_display el) else Some s
    | None => Some (el_display el)
    end
  ∧ el_display (updateElement el (mkBinding BIntent (Some "hidden")) w)
    = "none"
  ∧ el_attributes (updateElement el (mkBinding BIntent (Some "hidden")) w)
      !! "aria-hidden" = Some "true".
Proof.
  intros Hw. rewrite updateElement_hidden, Hw. cbn [negb]. element_fields.
  split; [reflexivity|]. split; [reflexivity|]. apply lookup_insert_eq.
Qed.

(** One update under [hidden] with permission. *)
Lemma shown_update (el : Element) (w : World) :
  Intent.allowed w = true →
  el_display (updateElement el (mkBinding BIntent (Some "hidden")) w)
  = default "" (_intentOriginalDisplay el)
  ∧ el_attributes (updateElement el (mkBinding BIntent (Some "hidden")) w)
      !! "aria-hidden" = None.
Proof.
  intros Hw. rewrite updateElement_hidden, Hw. cbn [negb]. element_fields.
  split; [reflexivity|]. apply lookup_delete_eq.
Qed.

Lemma updates_cons (binding : DirectiveBinding) (w : World)
    (ws : list World) (el : Element) :
  updates binding (w :: ws) el
  = updates binding ws (updateElement el binding w).
Proof. reflexivity. Qed.

Lemma hidden_stays_hidden (remembered : string) (ws : list World)
    (el : Element) :
  _intentOriginalDisplay el = Some remembered →
  remembered ≠ "" →
  Forall (λ w, Intent.allowed w = false) ws →
  _intentOriginalDisplay
    (updates (mkBinding BIntent (Some "hidden")) ws el) = Some remembered
  ∧ (ws ≠ [] →
     el_display (updates (mkBinding BIntent (Some "hidden")) ws el) = "none"
     ∧ el_attributes (updates (mkBinding BIntent (Some "hidden")) ws el)
         !! "aria-hidden" = Some "true").
Proof.
  intros Ho Hne Hall. revert el Ho.
  induction Hall as [|w ws Hw Hall IH]; intros el Ho; [done|].
  rewrite updates_cons.
  destruct (hidden_update el w Hw) as (Ho' & Hd' & Ha').
  rewrite Ho, bool_decide_eq_false_2 in Ho' by exact Hne.
  destruct (IH _ Ho') as [IH1 IH2]. split; [exact IH1|]. intros _.
  destruct ws as [|w' ws]; [by split|]. by apply IH2.
Qed.

(** X17. The [hidden] modifier on an element that remembers no display yet,
    hidden by [n] updates without permission and then updated with
    permission: while hidden it has display [none] and [aria-hidden]; once
    permitted again [aria-hidden] is gone and the inline display is restored
    if it was not empty. An empty inline display is restored after one
    hidden update but not after two or more, when the element keeps display
    [none]; and with no hidden update at all the inline display is
    cleared. *)
Theorem hidden_restores_display
    (el : Element) (ws : list World) (w_ok : World) :
  _intentOriginalDisplay el = None →
  Forall (λ w, Intent.allowed w = false) ws →
  Intent.allowed w_ok = true →
  el_display
    (updateElement (updates (mkBinding BIntent (Some "hidden")) ws el)
       (mkBinding BIntent (Some "hidden")) w_ok)
  = match ws with
    | [] => ""
    | [_] => el_display el
    | _ :: _ :: _ =>
        if bool_decide (el_display el = "") then "none" else el_display el
    end
  ∧ el_attributes
      (updateElement (updates (mkBinding BIntent (Some "hidden")) ws el)
         (mkBinding BIntent (Some "hidden")) w_ok)
      !! "aria-hidden" = None
  ∧ (ws ≠ [] →
     el_display (updates (mkBinding BIntent (Some "hidden")) ws el) = "none"
     ∧ el_attributes (updates (mkBinding BIntent (Some "hidden")) ws el)
         !! "aria-hidden" = Some "true").
Proof.
  intros Ho Hall Hok.
  destruct ws as [|w1 ws].
  { destruct (shown_update el w_ok Hok) as [Hd Ha].
    change (updates (mkBinding BIntent (Some "hidden")) [] el) with el.
    rewrite Hd, Ha, Ho. by repeat split. }
  apply Forall_cons in Hall as [Hw1 Hall]. rewrite updates_cons.
  (* the first hidden update remembers the inline display *)
  destruct (hidden_update el w1 Hw1) as (Ho1 & Hd1 & Ha1).
  rewrite Ho in Ho1.
  destruct ws as [|w2 ws].
  { change (updates (mkBinding BIntent (Some "hidden")) []
              (updateElement el (mkBinding BIntent (Some "hidden")) w1))
      with (updateElement el (mkBinding BIntent (Some "hidden")) w1).
    destruct (shown_update
                (updateElement el (mkBinding BIntent (Some "hidden")) w1)
                w_ok Hok) as [-> ->].
    rewrite Ho1. by repeat split. }
  apply Forall_cons in Hall as [Hw2 Hall]. rewrite updates_cons.
  (* the second one overwrites an empty remembered display with "none" *)
  destruct (hidden_update
              (updateElement el (mkBinding BIntent (Some "hidden")) w1)
              w2 Hw2) as (Ho2 & Hd2 & Ha2).
  rewrite Ho1, Hd1 in Ho2.
  assert (Ho2' : _intentOriginalDisplay
                   (updateElement
                      (updateElement el (mkBinding BIntent (Some "hidden")) w1)
                      (mkBinding BIntent (Some "hidden")) w2)
                 = Some (if bool_decide (el_display el = "") then "none"
                         else el_display el)).
  { rewrite Ho2. by case_bool_decide. }
  assert (Hne : (if bool_decide (el_display el = "") then "none"
                 else el_display el) ≠ "").
  { case_bool_decide; [discriminate|done]. }
  destruct (hidden_stays_hidden _ ws _ Ho2' Hne Hall) as [Ho3 Hd3].
  destruct (shown_update
              (updates (mkBinding BIntent (Some "hidden")) ws
                 (updateElement
                    (updateElement el (mkBinding BIntent (Some "hidden")) w1)
                    (mkBinding BIntent (Some "hidden")) w2))
              w_ok Hok) as [-> ->].
  rewrite Ho3. split; [reflexivity|]. split; [reflexivity|]. intros _.
  destruct ws as [|w3 ws]; [by split|]. by apply Hd3.
Qed.

Lemma hidden_restores_display_witness :
  el_display
    (updateElement
       (updates (mkBinding BIntent (Some "hidden"))
          [with_allowed false two_observers;
           with_allowed false (set_state Started two_observers)]
          inline_button)
       (mkBinding BIntent (Some "hidden")) (with_allowed true two_observers))
  = (if bool_decide (el_display inline_button = "") then "none"
     else el_display inline_button)
  ∧ el_attributes
      (updateElement
         (updates (mkBinding BIntent (Some "hidden"))
            [with_allowed false two_observers;
             with_allowed false (set_state Started two_observers)]
            inline_button)
         (mkBinding BIntent (Some "hidden")) (with_allowed true two_observers))
      !! "aria-hidden" = None.
Proof.
  destruct (hidden_restores_display inline_button
              [with_allowed false two_observers;
               with_allowed false (set_state Started two_observers)]
              (with_allowed true two_observers))
    as (H1 & H2 & _); [reflexivity | | reflexivity | exact (conj H1 H2)].
  repeat constructor.
Defined.

(** X18. Mounting the directive on an element that holds no handle and
    unmounting it leaves the subscriber array, and the whole store, as they
    were, whatever the binding value and whether or not the intent has
    [subscribe]; the element forgets the handle and the remembered
    display. *)
Theorem mounted_then_beforeUnmount
    (cb : CallbackId) (el : Element) (binding : DirectiveBinding) (w : World) :
  cb ∉ subscribers w →
  _intentUnsubscribe el = None →
  (beforeUnmount (mounted cb el binding w).1 (mounted cb el binding w).2).2 = w
  ∧ _intentUnsubscribe
      (beforeUnmount (mounted cb el binding w).1
         (mounted cb el binding w).2).1 = None
  ∧ _intentOriginalDisplay
      (beforeUnmount (mounted cb el binding w).1
         (mounted cb el binding w).2).1 = None
  ∧ (value binding = BIntent → cfg_subscribe (cfg w) = true →
     subscribers (mounted cb el binding w).2 = subscribers w ++ [cb]
     ∧ _intentUnsubscribe (mounted cb el binding w).1 = Some cb).
Proof.
  intros Hn Hel. destruct binding as [v modifier].
  unfold mounted, beforeUnmount. cbn [value].
  destruct v; cbn [fst snd _intentUnsubscribe _intentOriginalDisplay];
    rewrite ?Hel; try (repeat split; done).
  destruct (cfg_subscribe (cfg w)) eqn:Hsub;
    cbn [fst snd _intentUnsubscribe _intentOriginalDisplay].
  - rewrite subscribe_then_unsubscribe_aux by done. by repeat split.
  - rewrite updateElement_keeps_foreign_parts_aux, Hel. by repeat split.
Qed.

Lemma mounted_then_beforeUnmount_witness :
  (beforeUnmount
     (mounted 4%nat demo_button (mkBinding BIntent (Some "loading"))
        two_observers).1
     (mounted 4%nat demo_button (mkBinding BIntent (Some "loading"))
        two_observers).2).2
  = two_observers.
Proof.
  apply (mounted_then_beforeUnmount 4%nat demo_button
           (mkBinding BIntent (Some "loading")) two_observers);
    [|reflexivity].
  intros Hin. apply elem_of_cons in Hin as [Hin|Hin]; [discriminate|].
  apply list_elem_of_singleton in Hin. discriminate.
Defined.

(** ** IntentProgress: the class of a step *)

(** X19. For each of the [n] steps IntentProgress renders, the class it gets
    depends on the state alone: every step is pending while the intent is
    idle, every step is completed once the intent is completed, and in each
    of the five other states (blocked and failed included) the first step is
    active and all later ones are pending. *)
Theorem step_classes (current : IntentState) (n index : nat) :
  (index < n)%nat →
  getStepClass current n (Z.of_nat index)
  = match current with
    | Idle => "intent-progress__step--pending"
    | Completed => "intent-progress__step--completed"
    | _ =>
        match index with
        | O => "intent-progress__step--active"
        | S _ => "intent-progress__step--pending"
        end
    end.
Proof.
  intros Hlt. unfold getStepClass, currentStepIndex.
  destruct current; simpl;
    repeat match goal with
      | |- context [(?a <? ?b)%Z] => destruct (Z.ltb_spec a b); try lia
      | |- context [(?a =? ?b)%Z] => destruct (Z.eqb_spec a b); try lia
      end;
    try reflexivity; destruct index; try reflexivity; lia.
Qed.

Lemma step_classes_witness :
  getStepClass Failed 4 (Z.of_nat 2) = "intent-progress__step--pending".
Proof. apply (step_classes Failed 4 2). lia. Defined.

(** ** The plugin *)


